(** * TradeGraph backend: guards, shipment search, export, tariffs, compliance

    A shallow embedding of the NestJS backend of the TradeGraph repository
    (guards under [common/guards], the shipments, tariffs and compliance
    services and their controllers) together with the properties the
    natural-language specification states about them.

    Conventions.
    - A JavaScript [number] that carries an amount, a page or a rate is an
      IEEE-754 binary64 value: Rocq's primitive [float], whose operations
      round to nearest-even exactly as JavaScript's do.
    - The integer literals stored in the tier and row-limit tables are kept
      as [Z]; they are only compared or printed, never computed with.
    - An object literal used as a lookup table ([Record<string, number>]) is
      a [gmap string Z] for its own properties, plus the members it inherits
      from [Object.prototype], which a bracket lookup also reaches.
    - An optional property ([x?: T]) is an [option T]. *)

From Stdlib Require Import ZArith Bool List String Ascii Floats Uint63 Lia.
From Stdlib Require Import DecimalString DecimalPos DecimalZ Permutation.
From stdpp Require Import gmap strings.
Import ListNotations.

Set Warnings "-inexact-float".

Local Open Scope Z_scope.
Local Open Scope string_scope.

(** ** JavaScript values reached by a table lookup *)

Module JS.

(** Property names every object literal inherits from [Object.prototype],
    each with the string its value turns into under [ToPrimitive]: the
    members are native functions, except [__proto__], which is the
    prototype object itself. All of them are truthy. *)
Definition nativeFunction (name : string) : string :=
  "function " ++ name ++ "() { [native code] }".

Definition objectPrototype : list (string * string) :=
  [ ("constructor", nativeFunction "Object");
    ("__defineGetter__", nativeFunction "__defineGetter__");
    ("__defineSetter__", nativeFunction "__defineSetter__");
    ("hasOwnProperty", nativeFunction "hasOwnProperty");
    ("__lookupGetter__", nativeFunction "__lookupGetter__");
    ("__lookupSetter__", nativeFunction "__lookupSetter__");
    ("isPrototypeOf", nativeFunction "isPrototypeOf");
    ("propertyIsEnumerable", nativeFunction "propertyIsEnumerable");
    ("toString", nativeFunction "toString");
    ("valueOf", nativeFunction "valueOf");
    ("__proto__", "[object Object]");
    ("toLocaleString", nativeFunction "toLocaleString") ].

Fixpoint assoc (k : string) (l : list (string * string)) : option string :=
  match l with
  | [] => None
  | (k', v) :: l' => if String.eqb k k' then Some v else assoc k l'
  end.

(** What [table[key]] evaluates to for a table of numbers written as an
    object literal. *)
Inductive value : Type :=
| Num (n : Z)                 (* an own property of the table *)
| Inherited (prim : string)   (* a member of Object.prototype *)
| Undefined.

Definition get (table : gmap string Z) (key : string) : value :=
  match table !! key with
  | Some n => Num n
  | None =>
      match assoc key objectPrototype with
      | Some prim => Inherited prim
      | None => Undefined
      end
  end.

(** [v || d] for a looked-up value [v] and a numeric default [d]:
    [undefined] and [0] are falsy. *)
Definition orDefault (v : value) (d : Z) : value :=
  match v with
  | Num n => if (n =? 0)%Z then Num d else Num n
  | Inherited p => Inherited p
  | Undefined => Num d
  end.

(** [a >= b]. Two numbers compare numerically. An inherited member becomes
    its primitive string, which is not numeric: against a number the
    comparison is with NaN and is false; two such strings compare by code
    units. *)
Definition ge (a b : value) : bool :=
  match a, b with
  | Num x, Num y => (y <=? x)%Z
  | Inherited p, Inherited q => negb (String.ltb p q)
  | _, _ => false
  end.

(** [s || d] for an optional string: [undefined] and the empty string are
    falsy. *)
Definition strOr (s : option string) (d : string) : string :=
  match s with
  | Some "" | None => d
  | Some t => t
  end.

(** Truthiness of an optional string. *)
Definition truthy (s : option string) : bool :=
  match s with
  | Some "" | None => false
  | Some _ => true
  end.

(** [String(v)], as a template literal computes it (the tables hold small
    integers, which print in decimal). *)
Definition toString (v : value) : string :=
  match v with
  | Num n => NilZero.string_of_int (Z.to_int n)
  | Inherited p => p
  | Undefined => "undefined"
  end.

(** *** Numbers *)

(** Truthiness of a number: [0], [-0] and [NaN] are falsy. *)
Definition numTruthy (x : float) : bool :=
  negb (PrimFloat.eqb x 0) && PrimFloat.eqb x x.

(** [x || d] for an optional number. *)
Definition numOr (x : option float) (d : float) : float :=
  match x with
  | Some v => if numTruthy v then v else d
  | None => d
  end.

(** An integer below 2^63 as a float (exact below 2^53). *)
Definition ofZ (n : Z) : float := PrimFloat.of_uint63 (Uint63.of_Z n).

(** [Math.ceil]. A finite non-zero float is [±m·2^e]; with [e >= 0] it is
    an integer already, otherwise its magnitude has integer part
    [m >> -e]. NaN, the infinities and the zeros are returned as they
    are; a negative argument above [-1] gives [-0]. *)
Definition ceil (x : float) : float :=
  match Prim2SF x with
  | S754_finite negative m e =>
      if (0 <=? e)%Z then x
      else
        let q := Z.shiftr (Z.pos m) (- e) in
        let whole := (Z.shiftl q (- e) =? Z.pos m)%Z in
        if negative then
          if (q =? 0)%Z then PrimFloat.neg_zero else PrimFloat.opp (ofZ q)
        else ofZ (if whole then q else q + 1)
  | _ => x
  end.

(** [Number.isNaN]: NaN is the one number that differs from itself. *)
Definition isNaN (x : float) : bool := negb (PrimFloat.eqb x x).

(** [Number.isFinite]. *)
Definition isFinite (x : float) : bool :=
  PrimFloat.ltb (PrimFloat.abs x) PrimFloat.infinity.

Definition isNegZero (x : float) : bool :=
  match Prim2SF x with S754_zero true => true | _ => false end.

(** [Math.min(a, b)]: NaN if either argument is NaN; [-0] is below [+0]. *)
Definition min (a b : float) : float :=
  if isNaN a || isNaN b then PrimFloat.nan
  else if PrimFloat.ltb a b then a
  else if PrimFloat.ltb b a then b
  else if isNegZero a then a else b.

(** [p = d] as a default parameter: the default replaces [undefined]
    only. *)
Definition defaultTo {A : Type} (p : option A) (d : A) : A :=
  match p with Some v => v | None => d end.

(** [s.substring(0, n)], a string being the sequence of its code units. *)
Definition substring0 (n : nat) (s : string) : string := String.substring 0 n s.

End JS.

(** ** The HTTP request as the guards see it *)

(** [request.user], as installed by the authentication guard. *)
Module User.
Record t : Type := mk {
  id : string;
  organizationId : string;
  tier : string;
  role : string
}.
End User.

Module Request.
Record t : Type := mk {
  authorization : option string;   (* request.headers.authorization *)
  user : option User.t             (* request.user *)
}.

(** The assignment [request.user = u]. *)
Definition setUser (request : t) (u : User.t) : t :=
  {| authorization := authorization request; user := Some u |}.
End Request.

(** ** common/guards/jwt-auth.guard.ts *)

Module JwtAuthGuard.

Definition devUser : User.t :=
  {| User.id := "dev-user"; User.organizationId := "dev-org";
     User.tier := "PRO"; User.role := "ADMIN" |}.

Definition mockUser : User.t :=
  {| User.id := "user-123"; User.organizationId := "org-456";
     User.tier := "PRO"; User.role := "ANALYST" |}.

(** [canActivate] assigns [request.user] and returns its verdict; the
    request after the assignment is returned with it. *)
Definition canActivate (request : Request.t) : bool * Request.t :=
  let authHeader := Request.authorization request in
  if negb (JS.truthy authHeader) then
    (* development fallback: unauthenticated requests are let through *)
    (true, Request.setUser request devUser)
  else
    (* the token is not validated: a mock user is extracted *)
    (true, Request.setUser request mockUser).

End JwtAuthGuard.

(** ** common/guards/tier.guard.ts *)

Module TierGuard.

Definition tierHierarchy : gmap string Z :=
  <["STARTER" := 1]> (<["PRO" := 2]> (<["ENTERPRISE" := 3]>
    (<["GOV" := 4]> (<["CHAMBER" := 3]> ∅)))).

(** [requiredTier] is the handler's ['requiredTier'] metadata, absent when
    the handler carries no [@RequiresTier]. *)
Definition canActivate (requiredTier : option string) (request : Request.t) : bool :=
  match requiredTier with
  | None | Some "" => true   (* no tier requirement *)
  | Some requiredTier =>
      let userTier :=
        JS.strOr (option_map User.tier (Request.user request)) "STARTER" in
      let requiredLevel := JS.orDefault (JS.get tierHierarchy requiredTier) 0 in
      let userLevel := JS.orDefault (JS.get tierHierarchy userTier) 0 in
      JS.ge userLevel requiredLevel
  end.

End TierGuard.

(** ** How a controller method is reached *)

(** The error taxonomy of the specification. The only failure the guards
    can raise is a refusal, which Nest turns into [403 Forbidden]: the
    specification's [InsufficientTier]. [TypeError] is a dereference of a
    missing [request.user]. *)
Inductive ApiError : Type :=
| InsufficientTier
| ValidationError
| QuotaExceeded
| UpstreamUnavailable
| NotFound
| TypeError.

Inductive Result (A : Type) : Type :=
| Ok (body : A)
| Err (e : ApiError).
Arguments Ok {A} body.
Arguments Err {A} e.

Definition isOk {A : Type} (r : Result A) : bool :=
  match r with Ok _ => true | Err _ => false end.

(** [@UseGuards(JwtAuthGuard, TierGuard)]: the guards run in this order on
    the same request object, and the handler runs only if both agree. The
    handler receives [@CurrentUser()], that is [request.user]. *)
Definition guarded {A : Type} (requiredTier : option string)
    (request : Request.t) (handler : User.t -> A) : Result A :=
  let (authenticated, request1) := JwtAuthGuard.canActivate request in
  if authenticated then
    if TierGuard.canActivate requiredTier request1 then
      match Request.user request1 with
      | Some currentUser => Ok (handler currentUser)
      | None => Err TypeError
      end
    else Err InsufficientTier
  else Err InsufficientTier.

(** ** common/entities/shipment.entity.ts and the shipment DTOs *)

Inductive TransportMode : Type := SEA | AIR | RAIL | ROAD | MULTIMODAL.

Inductive ShipmentSortField : Type :=
| shipmentDate | declaredValueUsd | quantity | unitPriceUsd
| shipperName | consigneeName.

Inductive SortOrder : Type := asc | desc.

(** A shipment as the search response lists it ([ShipmentDto]). *)
Module Shipment.
Record t : Type := mk {
  id : string;
  shipperId : string;
  shipperName : string;
  shipperCountryCode : string;
  consigneeId : string;
  consigneeName : string;
  consigneeCountryCode : string;
  hsCode : string;
  productDescription : string;
  quantity : float;
  quantityUnit : string;
  declaredValueUsd : option float;
  unitPriceUsd : option float;
  portOfLoadingName : string;
  portOfDischargeName : string;
  shipmentDate : string
}.
End Shipment.

Module CountAggregation.
Record t : Type := mk { key : string; label : string; count : float }.
End CountAggregation.

Module RangeAggregation.
Record t : Type := mk { min : float; max : float; avg : float }.
End RangeAggregation.

Module Aggregations.
Record t : Type := mk {
  byOriginCountry : list CountAggregation.t;
  byDestinationCountry : list CountAggregation.t;
  byHsChapter : list CountAggregation.t;
  byTransportMode : list CountAggregation.t;
  byCarrier : list CountAggregation.t;
  valueRange : RangeAggregation.t;
  quantityRange : RangeAggregation.t
}.

(** The facet buckets of an aggregations object: its array-valued
    properties, by name. *)
Definition facetBuckets (a : t) : list (string * list CountAggregation.t) :=
  [ ("byOriginCountry", byOriginCountry a);
    ("byDestinationCountry", byDestinationCountry a);
    ("byHsChapter", byHsChapter a);
    ("byTransportMode", byTransportMode a);
    ("byCarrier", byCarrier a) ].

(** Its range summaries. *)
Definition rangeSummaries (a : t) : list (string * RangeAggregation.t) :=
  [ ("valueRange", valueRange a); ("quantityRange", quantityRange a) ].
End Aggregations.

Module ShipmentSearchResult.
Record t : Type := mk {
  items : list Shipment.t;
  total : float;
  page : float;
  pageSize : float;
  totalPages : float;
  aggregations : Aggregations.t
}.
End ShipmentSearchResult.

(** [SearchShipmentsDto]: every filter is optional. *)
Module SearchShipmentsDto.
Record t : Type := mk {
  hsCode : option string;
  productKeyword : option string;
  shipperName : option string;
  consigneeName : option string;
  shipperId : option string;
  consigneeId : option string;
  originCountries : option (list string);
  destinationCountries : option (list string);
  portsOfLoading : option (list string);
  portsOfDischarge : option (list string);
  dateFrom : option string;
  dateTo : option string;
  minQuantity : option float;
  maxQuantity : option float;
  minValueUsd : option float;
  maxValueUsd : option float;
  minUnitPrice : option float;
  maxUnitPrice : option float;
  transportMode : option TransportMode;
  carrier : option string;
  page : option float;
  pageSize : option float;
  sortBy : option ShipmentSortField;
  sortOrder : option SortOrder;
  includeAggregations : option bool;
  excludeCompanyIds : option (list string)
}.

(** A body with no property set. *)
Definition empty : t :=
  mk None None None None None None None None None None None None None
     None None None None None None None None None None None None None.

(** The same filters with other pagination. *)
Definition withPaging (d : t) (p ps : option float) : t :=
  mk (hsCode d) (productKeyword d) (shipperName d) (consigneeName d)
     (shipperId d) (consigneeId d) (originCountries d)
     (destinationCountries d) (portsOfLoading d) (portsOfDischarge d)
     (dateFrom d) (dateTo d) (minQuantity d) (maxQuantity d)
     (minValueUsd d) (maxValueUsd d) (minUnitPrice d) (maxUnitPrice d)
     (transportMode d) (carrier d) p ps (sortBy d) (sortOrder d)
     (includeAggregations d) (excludeCompanyIds d).

(** What the class-validator decorators accept for the two pagination
    properties: [@IsNumber() @Min(1)] for [page] and
    [@IsNumber() @Min(1) @Max(100)] for [pageSize], each [@IsOptional()].
    [@IsNumber()] refuses NaN and the infinities, which the bounds below
    exclude as well. *)
Definition validPage (p : option float) : bool :=
  match p with
  | None => true
  | Some v => PrimFloat.leb 1 v && PrimFloat.ltb v PrimFloat.infinity
  end.

Definition validPageSize (ps : option float) : bool :=
  match ps with
  | None => true
  | Some v => PrimFloat.leb 1 v && PrimFloat.leb v 100
  end.

(** The other decorators of the class, property by property. An
    [@IsOptional()] property that is absent is not validated. *)

(** [@IsString() @MaxLength(n)] *)
Definition validText (n : nat) (v : option string) : bool :=
  match v with
  | None => true
  | Some text => (String.length text <=? n)%nat
  end.

(** [@IsArray() @IsString({ each: true }) @ArrayMaxSize(n)] *)
Definition validList (n : nat) (v : option (list string)) : bool :=
  match v with
  | None => true
  | Some values => (length values <=? n)%nat
  end.

(** [@IsNumber() @Min(0)]: a finite number that is not below 0. *)
Definition validAmount (v : option float) : bool :=
  match v with
  | None => true
  | Some x => JS.isFinite x && PrimFloat.leb 0 x
  end.

(** [@IsDateString()]; [isDateString] is class-validator's test of a date
    string. *)
Definition validDate (isDateString : string -> bool) (v : option string)
    : bool :=
  match v with
  | None => true
  | Some text => isDateString text
  end.

(** The whole body. The properties declared with [@IsString()] alone, the
    enumerations and [includeAggregations] hold a value of their type or
    none, which is all their decorators ask. *)
Definition valid (isDateString : string -> bool) (d : t) : bool :=
  validText 10 (hsCode d)
  && validText 200 (productKeyword d)
  && validText 200 (shipperName d)
  && validText 200 (consigneeName d)
  && validList 50 (originCountries d)
  && validList 50 (destinationCountries d)
  && validList 50 (portsOfLoading d)
  && validList 50 (portsOfDischarge d)
  && validDate isDateString (dateFrom d)
  && validDate isDateString (dateTo d)
  && validAmount (minQuantity d)
  && validAmount (maxQuantity d)
  && validAmount (minValueUsd d)
  && validAmount (maxValueUsd d)
  && validAmount (minUnitPrice d)
  && validAmount (maxUnitPrice d)
  && validText 100 (carrier d)
  && validPage (page d)
  && validPageSize (pageSize d)
  && validList 100 (excludeCompanyIds d).

(** The instance the pipe builds from a body: the class's property
    initializers stand for what the body leaves out. *)
Definition instantiate (d : t) : t :=
  mk (hsCode d) (productKeyword d) (shipperName d) (consigneeName d)
     (shipperId d) (consigneeId d) (originCountries d)
     (destinationCountries d) (portsOfLoading d) (portsOfDischarge d)
     (dateFrom d) (dateTo d) (minQuantity d) (maxQuantity d)
     (minValueUsd d) (maxValueUsd d) (minUnitPrice d) (maxUnitPrice d)
     (transportMode d) (carrier d)
     (Some (JS.defaultTo (page d) 1%float))
     (Some (JS.defaultTo (pageSize d) 20%float))
     (Some (JS.defaultTo (sortBy d) shipmentDate))
     (Some (JS.defaultTo (sortOrder d) desc))
     (Some (JS.defaultTo (includeAggregations d) true))
     (excludeCompanyIds d).
End SearchShipmentsDto.

Inductive ExportFormat : Type := csv | xlsx.

Definition ExportFormat_toString (f : ExportFormat) : string :=
  match f with csv => "csv" | xlsx => "xlsx" end.

Module ExportResponse.
Record t : Type := mk { message : string; format : ExportFormat }.

(** The own properties of the returned object, in order: the keys of the
    JSON body. *)
Definition keys (_ : t) : list string := ["message"; "format"].
End ExportResponse.

(** ** modules/shipments/shipments.service.ts *)

Module ShipmentsService.

Definition emptyRange : RangeAggregation.t :=
  {| RangeAggregation.min := 0; RangeAggregation.max := 0;
     RangeAggregation.avg := 0 |}.

Definition search (searchDto : SearchShipmentsDto.t) (user : User.t)
    : ShipmentSearchResult.t :=
  {| ShipmentSearchResult.items := [];
     ShipmentSearchResult.total := 0;
     ShipmentSearchResult.page := JS.numOr (SearchShipmentsDto.page searchDto) 1;
     ShipmentSearchResult.pageSize :=
       JS.numOr (SearchShipmentsDto.pageSize searchDto) 20;
     ShipmentSearchResult.totalPages := 0;
     ShipmentSearchResult.aggregations :=
       {| Aggregations.byOriginCountry := [];
          Aggregations.byDestinationCountry := [];
          Aggregations.byHsChapter := [];
          Aggregations.byTransportMode := [];
          Aggregations.byCarrier := [];
          Aggregations.valueRange := emptyRange;
          Aggregations.quantityRange := emptyRange |} |}.

Definition rowLimits : gmap string Z :=
  <["STARTER" := 500]> (<["PRO" := 5000]> (<["ENTERPRISE" := 50000]>
    (<["GOV" := 100000]> ∅))).

(** [rowLimits[user.tier] || 500] *)
Definition exportLimit (user : User.t) : JS.value :=
  JS.orDefault (JS.get rowLimits (User.tier user)) 500.

Definition export (searchDto : SearchShipmentsDto.t) (format : ExportFormat)
    (user : User.t) : ExportResponse.t :=
  let limit := exportLimit user in
  {| ExportResponse.message :=
       "Export initiated with limit of " ++ JS.toString limit ++ " rows";
     ExportResponse.format := format |}.

Inductive CompanyRole : Type := shipper | consignee | both.

Record Pagination : Type := mkPagination { page : float; pageSize : float }.

Definition findByCompany (companyId : string) (role : CompanyRole)
    (pagination : Pagination) (user : User.t) : ShipmentSearchResult.t :=
  {| ShipmentSearchResult.items := [];
     ShipmentSearchResult.total := 0;
     ShipmentSearchResult.page := page pagination;
     ShipmentSearchResult.pageSize := pageSize pagination;
     ShipmentSearchResult.totalPages := 0;
     ShipmentSearchResult.aggregations :=
       {| Aggregations.byOriginCountry := [];
          Aggregations.byDestinationCountry := [];
          Aggregations.byHsChapter := [];
          Aggregations.byTransportMode := [];
          Aggregations.byCarrier := [];
          Aggregations.valueRange := emptyRange;
          Aggregations.quantityRange := emptyRange |} |}.

End ShipmentsService.

(** ** modules/shipments/shipments.controller.ts *)

(** ** main.ts: the global validation pipe *)

Module ValidationPipe.

(** [new ValidationPipe({ whitelist: true, forbidNonWhitelisted: true,
    transform: true })] applied to a [@Body()] of class
    [SearchShipmentsDto]: a body that breaks a decorator of the class is
    refused with [400 Bad Request], the specification's [ValidationError];
    an accepted one reaches the handler as an instance of the class. (A
    property the class does not declare is refused as well; a body of type
    [SearchShipmentsDto.t] has none.) *)
Definition transform (isDateString : string -> bool)
    (body : SearchShipmentsDto.t) : Result SearchShipmentsDto.t :=
  if SearchShipmentsDto.valid isDateString body
  then Ok (SearchShipmentsDto.instantiate body)
  else Err ValidationError.

End ValidationPipe.

(** ** modules/shipments/shipments.controller.ts *)

Module ShipmentsController.

(** The guards run first; the pipe then validates the body, and the handler
    runs on the instance it built. *)
Definition searchShipments (isDateString : string -> bool)
    (request : Request.t) (searchDto : SearchShipmentsDto.t)
    : Result ShipmentSearchResult.t :=
  match guarded (Some "STARTER") request (fun user => user) with
  | Err e => Err e
  | Ok user =>
      match ValidationPipe.transform isDateString searchDto with
      | Err e => Err e
      | Ok searchDto => Ok (ShipmentsService.search searchDto user)
      end
  end.

(** [@Query('format') format = 'csv'] *)
Definition exportShipments (isDateString : string -> bool)
    (request : Request.t) (searchDto : SearchShipmentsDto.t)
    (format : option ExportFormat) : Result ExportResponse.t :=
  let format := match format with Some f => f | None => csv end in
  match guarded (Some "STARTER") request (fun user => user) with
  | Err e => Err e
  | Ok user =>
      match ValidationPipe.transform isDateString searchDto with
      | Err e => Err e
      | Ok searchDto => Ok (ShipmentsService.export searchDto format user)
      end
  end.

End ShipmentsController.

(** ** modules/tariffs/tariffs.service.ts *)

Module PreferentialRate.
Record t : Type := mk { ftaName : string; rate : float; conditions : string }.
End PreferentialRate.

Inductive TradeMeasureType : Type :=
| ANTIDUMPING | COUNTERVAILING | SAFEGUARD | QUOTA.

Module TradeMeasure.
Record t : Type := mk {
  type : TradeMeasureType;
  rate : float;
  effectiveFrom : string;
  effectiveTo : string
}.
End TradeMeasure.

Module DutyRates.
Record t : Type := mk {
  hsCode : string;
  origin : string;
  destination : string;
  mfnRate : float;
  preferentialRates : list PreferentialRate.t;
  tradeMeasures : list TradeMeasure.t;
  effectiveTotalRate : float
}.

(** The own properties of the returned object, in order. *)
Definition keys (_ : t) : list string :=
  ["hsCode"; "origin"; "destination"; "mfnRate"; "preferentialRates";
   "tradeMeasures"; "effectiveTotalRate"].
End DutyRates.

Module LandedCost.
Record t : Type := mk {
  hsCode : string;
  origin : string;
  destination : string;
  cifValue : float;
  dutyRate : float;
  dutyAmount : float;
  vatRate : float;
  vatAmount : float;
  totalLandedCost : float;
  disclaimer : string
}.
End LandedCost.

Module HsCodeDetails.
Record t : Type := mk {
  code : string;
  description : string;
  chapter : string;
  heading : string;
  children : list Empty_set   (* the literal [[]] *)
}.
End HsCodeDetails.

Module PolicyParams.
Record t : Type := mk {
  hsCode : string;
  origin : option string;
  destination : string;
  newDutyRate : float;
  lookbackMonths : float
}.
End PolicyParams.

Module ProjectedImpact.
Record t : Type := mk {
  volumeChangePercent : float;
  revenueChange : float;
  affectedCompanies : float;
  topAffectedOrigins : list Empty_set
}.
End ProjectedImpact.

Module PolicySimulation.
Record t : Type := mk {
  hsCode : string;
  destination : string;
  currentRate : float;
  proposedRate : float;
  historicalPeriod : string;
  projectedImpact : ProjectedImpact.t;
  disclaimer : string
}.
End PolicySimulation.

Module TariffsService.

(** The service object as [calculateLandedCost] uses it: the method it
    calls on [this]. *)
Record t : Type := mk {
  getDutyRates : string -> string -> string -> DutyRates.t
}.

Module Impl.
(** [getDutyRates] as the class defines it. *)
Definition getDutyRates (hsCode origin destination : string) : DutyRates.t :=
  {| DutyRates.hsCode := hsCode;
     DutyRates.origin := origin;
     DutyRates.destination := destination;
     DutyRates.mfnRate := 0;
     DutyRates.preferentialRates := [];
     DutyRates.tradeMeasures := [];
     DutyRates.effectiveTotalRate := 0 |}.
End Impl.

Definition calculateLandedCost (this : t)
    (hsCode origin destination : string) (cifValue : float) : LandedCost.t :=
  let rates := getDutyRates this hsCode origin destination in
  let dutyAmount :=
    (cifValue * (DutyRates.effectiveTotalRate rates / 100))%float in
  let vatRate := 0.2%float in
  let vatAmount := ((cifValue + dutyAmount) * vatRate)%float in
  {| LandedCost.hsCode := hsCode;
     LandedCost.origin := origin;
     LandedCost.destination := destination;
     LandedCost.cifValue := cifValue;
     LandedCost.dutyRate := DutyRates.effectiveTotalRate rates;
     LandedCost.dutyAmount := dutyAmount;
     LandedCost.vatRate := (vatRate * 100)%float;
     LandedCost.vatAmount := vatAmount;
     LandedCost.totalLandedCost := (cifValue + dutyAmount + vatAmount)%float;
     LandedCost.disclaimer :=
       "This is an estimate. Actual costs may vary based on specific circumstances." |}.

(** The injected instance of the class. *)
Definition instance : t := {| getDutyRates := Impl.getDutyRates |}.

Definition getHsCodeDetails (code : string) : HsCodeDetails.t :=
  {| HsCodeDetails.code := code;
     HsCodeDetails.description := "";
     HsCodeDetails.chapter := JS.substring0 2 code;
     HsCodeDetails.heading := JS.substring0 4 code;
     HsCodeDetails.children := [] |}.

(** [numberToString] is [Number.prototype.toString], as the template
    literal applies it to [lookbackMonths]. *)
Definition simulatePolicyImpact (numberToString : float -> string)
    (params : PolicyParams.t) : PolicySimulation.t :=
  {| PolicySimulation.hsCode := PolicyParams.hsCode params;
     PolicySimulation.destination := PolicyParams.destination params;
     PolicySimulation.currentRate := 0;
     PolicySimulation.proposedRate := PolicyParams.newDutyRate params;
     PolicySimulation.historicalPeriod :=
       "Last " ++ numberToString (PolicyParams.lookbackMonths params) ++ " months";
     PolicySimulation.projectedImpact :=
       {| ProjectedImpact.volumeChangePercent := 0;
          ProjectedImpact.revenueChange := 0;
          ProjectedImpact.affectedCompanies := 0;
          ProjectedImpact.topAffectedOrigins := [] |};
     PolicySimulation.disclaimer :=
       "Simulation based on historical data. Actual impact may vary." |}.

End TariffsService.

(** The digit count the route documents for [hsCode]:
    [@ApiQuery({ name: 'hsCode', description: 'HS code (6-10 digits)' })].
    Nothing in the controller or the service evaluates it. *)
Definition isDigit (c : ascii) : bool :=
  let n := nat_of_ascii c in (48 <=? n)%nat && (n <=? 57)%nat.

Definition hsCodeWellFormed (hsCode : string) : bool :=
  forallb isDigit (list_ascii_of_string hsCode)
  && (6 <=? String.length hsCode)%nat && (String.length hsCode <=? 10)%nat.

(** ** modules/tariffs/tariffs.controller.ts *)

Module TariffsController.

Definition getDutyRates (request : Request.t)
    (hsCode origin destination : string) : Result DutyRates.t :=
  guarded (Some "STARTER") request
    (fun _ => TariffsService.getDutyRates TariffsService.instance
                hsCode origin destination).

Definition calculateLandedCost (request : Request.t)
    (hsCode origin destination : string) (cifValue : float)
    : Result LandedCost.t :=
  guarded (Some "PRO") request
    (fun _ => TariffsService.calculateLandedCost TariffsService.instance
                hsCode origin destination cifValue).

(** [@RequiresTier('GOV')], with [lookbackMonths = 12] as a default
    parameter. *)
Definition simulatePolicyImpact (numberToString : float -> string)
    (request : Request.t) (hsCode destination : string) (newDutyRate : float)
    (origin : option string) (lookbackMonths : option float)
    : Result PolicySimulation.t :=
  let lookbackMonths := JS.defaultTo lookbackMonths 12%float in
  guarded (Some "GOV") request
    (fun _ => TariffsService.simulatePolicyImpact numberToString
                {| PolicyParams.hsCode := hsCode;
                   PolicyParams.origin := origin;
                   PolicyParams.destination := destination;
                   PolicyParams.newDutyRate := newDutyRate;
                   PolicyParams.lookbackMonths := lookbackMonths |}).

End TariffsController.

(** ** modules/compliance *)

(** The clock as one call reads it. *)
Module Clock.
Record t : Type := mk {
  dateNow : Z;                  (* the value of Date.now(), in milliseconds *)
  newDate : Z;                  (* the instant held by new Date() *)
  toISOString : Z -> string     (* Date.prototype.toISOString *)
}.
End Clock.

Module RunCheckDto.
Record t : Type := mk { companyId : string; companyName : option string }.
End RunCheckDto.

Inductive CheckStatus : Type := CLEAR | REVIEW_REQUIRED | MATCH.

Module SanctionsHit.
Record t : Type := mk {
  listName : string;
  matchScore : float;
  matchedName : string;
  programs : list string
}.
End SanctionsHit.

Module CheckResult.
Record t : Type := mk {
  id : string;
  companyId : string;
  companyName : string;
  status : CheckStatus;
  checkedAt : string;
  checkedBy : string;
  hits : list SanctionsHit.t;
  listsChecked : list string;
  creditsRemaining : float
}.
End CheckResult.

Module CreditsBalance.
Record t : Type := mk {
  organizationId : string;
  remaining : float;
  total : float;
  resetsAt : string
}.
End CreditsBalance.

Module BatchCheckItem.
Record t : Type := mk {
  companyId : string;
  status : CheckStatus;
  checkedAt : string;
  hits : list Empty_set
}.
End BatchCheckItem.

Module MediaCheck.
Record t : Type := mk {
  companyId : string;
  status : CheckStatus;
  checkedAt : string;
  articles : list Empty_set
}.
End MediaCheck.

Module ComplianceService.

(** The class has no field: no balance, ledger or counter is kept between
    calls, so a call is a function of its arguments and the clock. *)
Definition runCheck (clock : Clock.t) (checkDto : RunCheckDto.t)
    (user : User.t) : CheckResult.t :=
  {| CheckResult.id :=
       "check_" ++ NilZero.string_of_int (Z.to_int (Clock.dateNow clock));
     CheckResult.companyId := RunCheckDto.companyId checkDto;
     CheckResult.companyName :=
       JS.strOr (RunCheckDto.companyName checkDto) "Unknown";
     CheckResult.status := CLEAR;
     CheckResult.checkedAt := Clock.toISOString clock (Clock.newDate clock);
     CheckResult.checkedBy := User.id user;
     CheckResult.hits := [];
     CheckResult.listsChecked :=
       ["OFAC_SDN"; "EU_CONSOLIDATED"; "UN_SC"; "UK_SANCTIONS"];
     CheckResult.creditsRemaining := 100 |}.

Definition getCreditsBalance (clock : Clock.t) (organizationId : string)
    : CreditsBalance.t :=
  {| CreditsBalance.organizationId := organizationId;
     CreditsBalance.remaining := 100;
     CreditsBalance.total := 100;
     CreditsBalance.resetsAt :=
       Clock.toISOString clock
         (Clock.dateNow clock + 30 * 24 * 60 * 60 * 1000) |}.

(** [companyIds.map(...)]: the callback runs once per element, in order,
    and each run reads the clock; [instants i] is the instant the run for
    index [i] reads. *)
Fixpoint runBatchFrom (toISOString : Z -> string) (instants : nat -> Z)
    (index : nat) (companyIds : list string) : list BatchCheckItem.t :=
  match companyIds with
  | [] => []
  | companyId :: rest =>
      {| BatchCheckItem.companyId := companyId;
         BatchCheckItem.status := CLEAR;
         BatchCheckItem.checkedAt := toISOString (instants index);
         BatchCheckItem.hits := [] |}
      :: runBatchFrom toISOString instants (S index) rest
  end.

Definition runBatchCheck (toISOString : Z -> string) (instants : nat -> Z)
    (companyIds : list string) (user : User.t) : list BatchCheckItem.t :=
  runBatchFrom toISOString instants 0 companyIds.

Definition runAdverseMediaCheck (clock : Clock.t) (companyId : string)
    (user : User.t) : MediaCheck.t :=
  {| MediaCheck.companyId := companyId;
     MediaCheck.status := CLEAR;
     MediaCheck.checkedAt := Clock.toISOString clock (Clock.newDate clock);
     MediaCheck.articles := [] |}.

End ComplianceService.

Module ComplianceController.

(** [@RequiresTier('STARTER') @CheckCredits('COMPLIANCE_CHECK')]. The
    second decorator only records the ['creditType'] metadata on the
    handler; neither guard of the controller reads it, and no other guard or
    interceptor is among the sources. The body is a [RunCheckDto]: a string
    [companyId] and an optional string [companyName], which is all its
    decorators ask. *)
Definition runCheck (clock : Clock.t) (request : Request.t)
    (checkDto : RunCheckDto.t) : Result CheckResult.t :=
  guarded (Some "STARTER") request
    (fun user => ComplianceService.runCheck clock checkDto user).

Definition getCreditsBalance (clock : Clock.t) (request : Request.t)
    : Result CreditsBalance.t :=
  guarded (Some "STARTER") request
    (fun user =>
       ComplianceService.getCreditsBalance clock (User.organizationId user)).

(** Requests handled at the same time. A handler reads and writes nothing
    shared, so whatever the interleaving each request gets the response it
    would get alone; the list gives the responses in the order of the
    requests. *)
Definition runChecks (requests : list (Clock.t * Request.t * RunCheckDto.t))
    : list (Result CheckResult.t) :=
  map (fun '(clock, request, checkDto) => runCheck clock request checkDto)
      requests.

Definition succeeded (responses : list (Result CheckResult.t)) : nat :=
  length (List.filter isOk responses).

(** [@RequiresTier('PRO') @CheckCredits('COMPLIANCE_CHECK_BATCH')] *)
Definition runBatchCheck (toISOString : Z -> string) (instants : nat -> Z)
    (request : Request.t) (companyIds : list string)
    : Result (list BatchCheckItem.t) :=
  guarded (Some "PRO") request
    (fun user =>
       ComplianceService.runBatchCheck toISOString instants companyIds user).

(** [@RequiresTier('ENTERPRISE') @CheckCredits('ADVERSE_MEDIA_CHECK')] *)
Definition runAdverseMediaCheck (clock : Clock.t) (request : Request.t)
    (companyId : string) : Result MediaCheck.t :=
  guarded (Some "ENTERPRISE") request
    (fun user => ComplianceService.runAdverseMediaCheck clock companyId user).

End ComplianceController.

(** ** modules/companies *)

Module SimilarCompanies.
Record t : Type := mk {
  companyId : string;
  similar : list Empty_set;
  limit : float
}.
End SimilarCompanies.

Module CompanyUBOs.
Record t : Type := mk { companyId : string; ubos : list Empty_set }.
End CompanyUBOs.

Module TradeTimeline.
Record t : Type := mk {
  companyId : string;
  months : float;
  timeline : list Empty_set
}.
End TradeTimeline.

Module CompaniesService.

Definition findSimilar (companyId : string) (limit : float)
    (user : option User.t) : SimilarCompanies.t :=
  {| SimilarCompanies.companyId := companyId;
     SimilarCompanies.similar := [];
     SimilarCompanies.limit := limit |}.

Definition getUBOs (companyId : string) (user : option User.t) : CompanyUBOs.t :=
  {| CompanyUBOs.companyId := companyId; CompanyUBOs.ubos := [] |}.

Definition getTradeTimeline (companyId : string) (months : float)
    (user : option User.t) : TradeTimeline.t :=
  {| TradeTimeline.companyId := companyId;
     TradeTimeline.months := months;
     TradeTimeline.timeline := [] |}.

End CompaniesService.

Module CompaniesController.

(** [@RequiresTier('PRO')], [limit = 10] as a default parameter. *)
Definition getSimilarCompanies (request : Request.t) (companyId : string)
    (limit : option float) : Result SimilarCompanies.t :=
  let limit := JS.defaultTo limit 10%float in
  guarded (Some "PRO") request
    (fun user =>
       CompaniesService.findSimilar companyId (JS.min limit 50) (Some user)).

(** [@RequiresTier('ENTERPRISE')] *)
Definition getUBOs (request : Request.t) (companyId : string)
    : Result CompanyUBOs.t :=
  guarded (Some "ENTERPRISE") request
    (fun user => CompaniesService.getUBOs companyId (Some user)).

(** [@RequiresTier('PRO')], [months = 12] as a default parameter. *)
Definition getTradeTimeline (request : Request.t) (companyId : string)
    (months : option float) : Result TradeTimeline.t :=
  let months := JS.defaultTo months 12%float in
  guarded (Some "PRO") request
    (fun user =>
       CompaniesService.getTradeTimeline companyId (JS.min months 36) (Some user)).

End CompaniesController.

(** ** frontend: components/results/ResultsView.tsx *)

Module ResultsView.

(** A [Set<string>]: its elements in insertion order, each once. *)
Definition has (id : string) (set : list string) : bool :=
  existsb (String.eqb id) set.

Definition delete (id : string) (set : list string) : list string :=
  List.filter (fun x => negb (String.eqb x id)) set.

Definition add (id : string) (set : list string) : list string :=
  if has id set then set else set ++ [id].

(** [new Set(iterable)] *)
Definition newSet (iterable : list string) : list string :=
  fold_left (fun set id => add id set) iterable [].

(** The next value of the [selectedIds] state after [toggleSelection(id)].
    [newSelected] starts as a copy of the current state. *)
Definition toggleSelection (selectedIds : list string) (id : string)
    : list string :=
  let newSelected := selectedIds in
  if has id newSelected then delete id newSelected else add id newSelected.

Inductive ViewMode : Type := companies | shipments.

(** The next state after [selectAll()]. Only the [id] of a company or of a
    shipment is read. *)
Definition selectAll {Company Shipment : Type}
    (companyId : Company -> string) (shipmentId : Shipment -> string)
    (viewMode : ViewMode) (shown : list Company) (items : list Shipment)
    : list string :=
  match viewMode with
  | companies => newSet (map companyId shown)
  | shipments => newSet (map shipmentId items)
  end.

Definition clearSelection : list string := newSet [].

(** The [disabled] attribute of the two pagination buttons. *)
Definition previousDisabled (results : ShipmentSearchResult.t) : bool :=
  PrimFloat.leb (ShipmentSearchResult.page results) 1.

Definition nextDisabled (results : ShipmentSearchResult.t) : bool :=
  PrimFloat.leb (ShipmentSearchResult.totalPages results)
                (ShipmentSearchResult.page results).

End ResultsView.

(** ** Auxiliary definitions for the statements *)

(** The table of [TierGuard], read as a function of the key. *)
Definition rankOf (s : string) : option Z :=
  if String.eqb s "STARTER" then Some 1
  else if String.eqb s "PRO" then Some 2
  else if String.eqb s "ENTERPRISE" then Some 3
  else if String.eqb s "GOV" then Some 4
  else if String.eqb s "CHAMBER" then Some 3
  else None.

(** A request whose [request.user] carries the given tier. *)
Definition requestOfTier (tier : string) : Request.t :=
  {| Request.authorization := Some "Bearer token";
     Request.user :=
       Some {| User.id := "user-1"; User.organizationId := "org-1";
               User.tier := tier; User.role := "ANALYST" |} |}.

(** A user of the given tier. *)
Definition userOfTier (tier : string) : User.t :=
  {| User.id := "user-1"; User.organizationId := "org-1";
     User.tier := tier; User.role := "ANALYST" |}.

(** A request that carries no Authorization header. *)
Definition anonymousRequest : Request.t :=
  {| Request.authorization := None; Request.user := None |}.

(** The sum of the counts of one facet bucket. *)
Definition facetSum (bucket : list CountAggregation.t) : float :=
  fold_right (fun c acc => (CountAggregation.count c + acc)%float) 0%float bucket.

(** A tariffs service whose rate lookup answers with the given effective
    rate (a resolver with data, where the class's own answers 0). *)
Definition resolverWithRate (rate : float) : TariffsService.t :=
  {| TariffsService.getDutyRates := fun hsCode origin destination =>
       {| DutyRates.hsCode := hsCode;
          DutyRates.origin := origin;
          DutyRates.destination := destination;
          DutyRates.mfnRate := rate;
          DutyRates.preferentialRates := [];
          DutyRates.tradeMeasures := [];
          DutyRates.effectiveTotalRate := rate |} |}.

(** A clock reading, and a single-check request made at it. *)
Definition sampleClock : Clock.t :=
  {| Clock.dateNow := 1767225600000;
     Clock.newDate := 1767225600000;
     Clock.toISOString := fun _ => "2026-01-01T00:00:00.000Z" |}.

Definition sampleCheck : Clock.t * Request.t * RunCheckDto.t :=
  (sampleClock, anonymousRequest,
   {| RunCheckDto.companyId := "company-1"; RunCheckDto.companyName := None |}).

(** The credits a response reports, when it is a success. *)
Definition reportedCredits (r : Result CheckResult.t) : option float :=
  match r with
  | Ok c => Some (CheckResult.creditsRemaining c)
  | Err _ => None
  end.

(** The level the guard reads for a caller. *)
Definition callerLevel (request : Request.t) : JS.value :=
  JS.orDefault
    (JS.get TierGuard.tierHierarchy
       (JS.strOr (option_map User.tier (Request.user request)) "STARTER")) 0.

(** Case analysis on the next key comparison of the goal. *)
Ltac case_key :=
  match goal with
  | |- context [String.eqb ?s ?k] =>
      destruct (String.eqb_spec s k) as [-> | ?]
  end.

(** Unfolds the estimate computed with the class's own rate lookup. *)
Ltac unfold_estimate :=
  cbv beta iota zeta delta
    [TariffsService.calculateLandedCost TariffsService.instance
     TariffsService.getDutyRates TariffsService.Impl.getDutyRates
     DutyRates.effectiveTotalRate LandedCost.dutyAmount LandedCost.vatAmount
     LandedCost.totalLandedCost].

(** * Properties *)

(** ** The tier table *)

Section TierTable.

Lemma tierHierarchy_lookup (s : string) :
  TierGuard.tierHierarchy !! s = rankOf s.
Proof.
  unfold TierGuard.tierHierarchy, rankOf.
  repeat (rewrite lookup_insert; case_decide as Hk;
          [ subst s; reflexivity
          | apply not_eq_sym in Hk; apply String.eqb_neq in Hk; rewrite Hk;
            clear Hk ]).
  apply lookup_empty.
Qed.

Lemma rankOf_range (s : string) (n : Z) : rankOf s = Some n -> 1 <= n <= 4.
Proof.
  unfold rankOf.
  repeat (case_key; [ intros [= <-]; lia | ]).
  discriminate.
Qed.

Lemma rankOf_not_inherited (s : string) (n : Z) :
  rankOf s = Some n -> JS.assoc s JS.objectPrototype = None.
Proof.
  unfold rankOf.
  repeat (case_key; [ intros _; reflexivity | ]).
  discriminate.
Qed.

Lemma rankOf_nonempty (s : string) (n : Z) : rankOf s = Some n -> s <> "".
Proof. intros H ->. discriminate H. Qed.

(** The level the guard computes for a recognized tier is its rank. *)
Lemma level_recognized (s : string) (n : Z) :
  TierGuard.tierHierarchy !! s = Some n ->
  JS.orDefault (JS.get TierGuard.tierHierarchy s) 0 = JS.Num n.
Proof.
  intros H. unfold JS.get. rewrite H. simpl.
  rewrite tierHierarchy_lookup in H. apply rankOf_range in H.
  destruct (Z.eqb_spec n 0); [lia | reflexivity].
Qed.

(** The level of any other key is [0] or a non-numeric inherited member. *)
Lemma level_unrecognized (s : string) :
  TierGuard.tierHierarchy !! s = None ->
  JS.orDefault (JS.get TierGuard.tierHierarchy s) 0 = JS.Num 0
  \/ exists p, JS.orDefault (JS.get TierGuard.tierHierarchy s) 0 = JS.Inherited p.
Proof.
  intros H. unfold JS.get. rewrite H.
  destruct (JS.assoc s JS.objectPrototype) as [p |]; simpl; eauto.
Qed.

Lemma strOr_nonempty (s d : string) : s <> "" -> JS.strOr (Some s) d = s.
Proof. destruct s; [congruence | reflexivity]. Qed.

Lemma canActivate_nonempty (required : string) (request : Request.t) :
  required <> "" ->
  TierGuard.canActivate (Some required) request =
  JS.ge (JS.orDefault (JS.get TierGuard.tierHierarchy
           (JS.strOr (option_map User.tier (Request.user request)) "STARTER")) 0)
        (JS.orDefault (JS.get TierGuard.tierHierarchy required) 0).
Proof. destruct required; [congruence | reflexivity]. Qed.

End TierTable.

(** ** The authentication guard *)

Lemma jwt_verdict (request : Request.t) :
  fst (JwtAuthGuard.canActivate request) = true.
Proof.
  unfold JwtAuthGuard.canActivate.
  destruct (negb (JS.truthy (Request.authorization request))); reflexivity.
Qed.

Lemma jwt_user (request : Request.t) :
  Request.user (snd (JwtAuthGuard.canActivate request)) =
  Some (if JS.truthy (Request.authorization request)
        then JwtAuthGuard.mockUser else JwtAuthGuard.devUser).
Proof.
  unfold JwtAuthGuard.canActivate.
  destruct (JS.truthy (Request.authorization request)); reflexivity.
Qed.

Lemma jwt_tier (request : Request.t) :
  option_map User.tier (Request.user (snd (JwtAuthGuard.canActivate request)))
  = Some "PRO".
Proof.
  rewrite jwt_user.
  destruct (JS.truthy (Request.authorization request)); reflexivity.
Qed.

(** What a guarded handler returns, by the verdict of the tier guard on a
    PRO caller. *)
Lemma guarded_unfold {A : Type} (requiredTier : option string)
    (request : Request.t) (handler : User.t -> A) :
  guarded requiredTier request handler =
  let request1 := snd (JwtAuthGuard.canActivate request) in
  let currentUser := if JS.truthy (Request.authorization request)
                     then JwtAuthGuard.mockUser else JwtAuthGuard.devUser in
  if TierGuard.canActivate requiredTier request1
  then Ok (handler currentUser) else Err InsufficientTier.
Proof.
  unfold guarded.
  pose proof (jwt_verdict request) as Hv. pose proof (jwt_user request) as Hu.
  destruct (JwtAuthGuard.canActivate request) as [ok request1].
  simpl in *. subst ok. rewrite Hu.
  destruct (TierGuard.canActivate requiredTier request1); reflexivity.
Qed.

Lemma tier_guard_after_jwt (required : string) (request : Request.t) :
  required <> "" ->
  TierGuard.canActivate (Some required) (snd (JwtAuthGuard.canActivate request))
  = JS.ge (JS.Num 2) (JS.orDefault (JS.get TierGuard.tierHierarchy required) 0).
Proof.
  intros Hr. rewrite canActivate_nonempty by exact Hr.
  rewrite jwt_tier. reflexivity.
Qed.

Lemma guarded_starter {A : Type} (request : Request.t) (handler : User.t -> A) :
  guarded (Some "STARTER") request handler =
  Ok (handler (if JS.truthy (Request.authorization request)
               then JwtAuthGuard.mockUser else JwtAuthGuard.devUser)).
Proof.
  rewrite guarded_unfold. cbv zeta.
  rewrite tier_guard_after_jwt by discriminate. reflexivity.
Qed.

Lemma guarded_pro {A : Type} (request : Request.t) (handler : User.t -> A) :
  guarded (Some "PRO") request handler =
  Ok (handler (if JS.truthy (Request.authorization request)
               then JwtAuthGuard.mockUser else JwtAuthGuard.devUser)).
Proof.
  rewrite guarded_unfold. cbv zeta.
  rewrite tier_guard_after_jwt by discriminate. reflexivity.
Qed.

(** ** Tier gating *)

(** C1. The tier table is STARTER=1, PRO=2, ENTERPRISE=3, CHAMBER=3, GOV=4.
    For a caller whose tier is one of the five and an operation whose
    required tier is one of the five, the guard accepts exactly when the
    caller's rank is at least the required rank; so an operation requiring
    PRO rejects a STARTER caller and accepts a PRO, ENTERPRISE, CHAMBER or GOV
    caller. *)
Theorem tier_gating_follows_rank (request : Request.t) (u : User.t) (n : Z)
    (Huser : Request.user request = Some u)
    (Hn : TierGuard.tierHierarchy !! User.tier u = Some n) :
  (TierGuard.tierHierarchy !! "STARTER" = Some 1
   /\ TierGuard.tierHierarchy !! "PRO" = Some 2
   /\ TierGuard.tierHierarchy !! "ENTERPRISE" = Some 3
   /\ TierGuard.tierHierarchy !! "CHAMBER" = Some 3
   /\ TierGuard.tierHierarchy !! "GOV" = Some 4)
  /\ (forall (required : string) (m : Z),
        TierGuard.tierHierarchy !! required = Some m ->
        TierGuard.canActivate (Some required) request = (m <=? n)%Z)
  /\ (User.tier u = "STARTER" ->
        TierGuard.canActivate (Some "PRO") request = false)
  /\ (User.tier u = "PRO" \/ User.tier u = "ENTERPRISE"
      \/ User.tier u = "CHAMBER" \/ User.tier u = "GOV" ->
        TierGuard.canActivate (Some "PRO") request = true).
Proof.
  assert (Hgen : forall (required : string) (m : Z),
             TierGuard.tierHierarchy !! required = Some m ->
             TierGuard.canActivate (Some required) request = (m <=? n)%Z).
  { intros required m Hm.
    assert (Hne : required <> "").
    { rewrite tierHierarchy_lookup in Hm. eapply rankOf_nonempty; eauto. }
    assert (Hne' : User.tier u <> "").
    { rewrite tierHierarchy_lookup in Hn. eapply rankOf_nonempty; eauto. }
    rewrite canActivate_nonempty by exact Hne.
    rewrite Huser. simpl option_map. rewrite strOr_nonempty by exact Hne'.
    rewrite (level_recognized _ _ Hn), (level_recognized _ _ Hm).
    reflexivity. }
  split; [ repeat split; rewrite tierHierarchy_lookup; reflexivity | ].
  split; [ exact Hgen | ].
  assert (Hpro : TierGuard.tierHierarchy !! "PRO" = Some 2)
    by (rewrite tierHierarchy_lookup; reflexivity).
  rewrite (Hgen "PRO" 2 Hpro).
  rewrite tierHierarchy_lookup in Hn.
  split.
  - intros Ht. rewrite Ht in Hn. injection Hn as <-. reflexivity.
  - intros [Ht | [Ht | [Ht | Ht]]]; rewrite Ht in Hn; injection Hn as <-;
      reflexivity.
Qed.

Lemma tier_gating_follows_rank_witness :
  TierGuard.canActivate (Some "PRO") (requestOfTier "CHAMBER") = true
  /\ TierGuard.canActivate (Some "GOV") (requestOfTier "CHAMBER") = false.
Proof.
  pose proof (tier_gating_follows_rank (requestOfTier "CHAMBER")
                {| User.id := "user-1"; User.organizationId := "org-1";
                   User.tier := "CHAMBER"; User.role := "ANALYST" |}
                3 eq_refl eq_refl) as (_ & Hgen & _ & Hacc).
  split.
  - apply Hacc. right. right. left. reflexivity.
  - apply (Hgen "GOV" 4). reflexivity.
Defined.

(** C2, as the specification states it, fails: a required tier that is not
    in the table is ranked 0 and every caller passes it, and a caller with
    an empty tier string is taken for a STARTER caller. *)
Lemma tier_check_fails_open_counterexample :
  TierGuard.tierHierarchy !! "PREMIUM" = None
  /\ TierGuard.canActivate (Some "PREMIUM") (requestOfTier "STARTER") = true
  /\ TierGuard.canActivate (Some "PREMIUM") (requestOfTier "BASIC") = true
  /\ TierGuard.tierHierarchy !! "" = None
  /\ TierGuard.canActivate (Some "STARTER") (requestOfTier "") = true.
Proof. vm_compute. repeat split; reflexivity. Qed.

(** C2, amended. The check fails closed on the caller side only. When the
    required tier is one of the five, a caller whose tier string is not
    empty and not one of the five is refused: its level is 0, or a
    non-numeric inherited member, and fails the comparison. A request
    without a user, and a user whose tier string is empty, are taken for a
    STARTER caller: they get the verdict a STARTER caller gets, for every
    requirement. An absent or empty required tier admits everyone. A
    required tier that is not one of the five (and not the name of an
    inherited member) is ranked 0 and compared as a rank: every caller
    whose own level is a number passes, recognized or not. *)
Theorem tier_check_closed_on_caller_only (request : Request.t) :
  let callerTier :=
    JS.strOr (option_map User.tier (Request.user request)) "STARTER" in
  (* closed for an unrecognized caller *)
  (forall (u : User.t) (required : string) (m : Z),
     Request.user request = Some u ->
     User.tier u <> "" ->
     TierGuard.tierHierarchy !! User.tier u = None ->
     TierGuard.tierHierarchy !! required = Some m ->
     TierGuard.canActivate (Some required) request = false)
  (* no user, or an empty tier: a STARTER caller *)
  /\ (Request.user request = None
      \/ (exists u, Request.user request = Some u /\ User.tier u = "") ->
      callerTier = "STARTER"
      /\ (forall required : option string,
            TierGuard.canActivate required request
            = TierGuard.canActivate required (requestOfTier "STARTER"))
      /\ TierGuard.canActivate (Some "STARTER") request = true
      /\ (forall (required : string) (m : Z),
            TierGuard.tierHierarchy !! required = Some m ->
            TierGuard.canActivate (Some required) request = (m <=? 1)%Z))
  (* no requirement: everyone *)
  /\ TierGuard.canActivate None request = true
  /\ TierGuard.canActivate (Some "") request = true
  (* an unrecognized requirement: rank 0 *)
  /\ (forall required : string,
        TierGuard.tierHierarchy !! required = None ->
        JS.assoc required JS.objectPrototype = None ->
        JS.assoc callerTier JS.objectPrototype = None ->
        TierGuard.canActivate (Some required) request = true).
Proof.
  cbv zeta. split; [ | split; [ | split; [ | split ] ] ].
  - intros u required m Huser Hne Hunknown Hm.
    assert (Hr : required <> "").
    { rewrite tierHierarchy_lookup in Hm. eapply rankOf_nonempty; eauto. }
    rewrite canActivate_nonempty by exact Hr.
    rewrite Huser. simpl option_map. rewrite strOr_nonempty by exact Hne.
    rewrite (level_recognized _ _ Hm).
    rewrite tierHierarchy_lookup in Hm. apply rankOf_range in Hm.
    destruct (level_unrecognized _ Hunknown) as [-> | [p ->]]; simpl.
    + apply Z.leb_gt. lia.
    + reflexivity.
  - intros Hmissing.
    assert (Htier : JS.strOr (option_map User.tier (Request.user request))
                      "STARTER" = "STARTER").
    { destruct Hmissing as [-> | (u & -> & Hempty)]; simpl;
        [ | rewrite Hempty ]; reflexivity. }
    assert (Hsame : forall required : option string,
               TierGuard.canActivate required request
               = TierGuard.canActivate required (requestOfTier "STARTER")).
    { intros [[| c r] |]; try reflexivity.
      rewrite !canActivate_nonempty by discriminate. rewrite Htier.
      reflexivity. }
    split; [ exact Htier | ]. split; [ exact Hsame | ].
    split; [ rewrite Hsame; reflexivity | ].
    intros required m Hm. rewrite Hsame.
    assert (Hr : required <> "").
    { rewrite tierHierarchy_lookup in Hm. eapply rankOf_nonempty; eauto. }
    rewrite canActivate_nonempty by exact Hr.
    rewrite (level_recognized _ _ Hm). reflexivity.
  - reflexivity.
  - reflexivity.
  - intros required Hreq Hproto Hcaller.
    destruct required as [| c required'].
    + reflexivity.
    + rewrite canActivate_nonempty by discriminate.
      assert (Hlevel : exists k : Z,
                 JS.orDefault
                   (JS.get TierGuard.tierHierarchy
                      (JS.strOr (option_map User.tier (Request.user request))
                         "STARTER")) 0
                 = JS.Num k /\ 0 <= k).
      { unfold JS.get. rewrite Hcaller.
        destruct (TierGuard.tierHierarchy
                    !! JS.strOr (option_map User.tier (Request.user request))
                         "STARTER") as [k |] eqn:Hk.
        - exists k. rewrite tierHierarchy_lookup in Hk.
          apply rankOf_range in Hk. simpl.
          destruct (Z.eqb_spec k 0); [ lia | split; [ reflexivity | lia ] ].
        - exists 0. split; [ reflexivity | lia ]. }
      destruct Hlevel as (k & -> & Hk).
      unfold JS.get. rewrite Hreq, Hproto. simpl. apply Z.leb_le. exact Hk.
Qed.

Lemma tier_check_closed_on_caller_only_witness :
  TierGuard.canActivate (Some "STARTER") (requestOfTier "BASIC") = false
  /\ TierGuard.canActivate (Some "PREMIUM") (requestOfTier "BASIC") = true
  /\ TierGuard.canActivate (Some "PRO") anonymousRequest = false
  /\ TierGuard.canActivate (Some "STARTER") (requestOfTier "") = true.
Proof.
  pose proof (tier_check_closed_on_caller_only (requestOfTier "BASIC"))
    as (Hclosed & _ & _ & _ & Hopen).
  pose proof (tier_check_closed_on_caller_only anonymousRequest)
    as (_ & Hanonymous & _).
  pose proof (tier_check_closed_on_caller_only (requestOfTier ""))
    as (_ & Hempty & _).
  split; [ | split; [ | split ] ].
  - apply (Hclosed (userOfTier "BASIC") "STARTER" 1); try reflexivity.
    discriminate.
  - apply (Hopen "PREMIUM"); reflexivity.
  - destruct (Hanonymous (or_introl eq_refl)) as (_ & _ & _ & Hrank).
    apply (Hrank "PRO" 2). reflexivity.
  - destruct (Hempty (or_intror (ex_intro _ (userOfTier "")
                                   (conj eq_refl eq_refl))))
      as (_ & _ & Hstarter & _).
    exact Hstarter.
Defined.

(** C9. The authentication guard admits every request. Without an
    Authorization header it installs the development user, with one the
    mock user; both have tier PRO. So the tier guard, run next, sees a PRO
    caller whatever the request: it passes STARTER- and PRO-gated handlers
    and refuses ENTERPRISE- and GOV-gated ones. *)
Theorem jwt_guard_admits_everyone_as_pro (request : Request.t) :
  let verdict := JwtAuthGuard.canActivate request in
  fst verdict = true
  /\ Request.user (snd verdict) =
       Some (if JS.truthy (Request.authorization request)
             then JwtAuthGuard.mockUser else JwtAuthGuard.devUser)
  /\ Request.user (snd (JwtAuthGuard.canActivate anonymousRequest)) =
       Some JwtAuthGuard.devUser
  /\ User.tier JwtAuthGuard.devUser = "PRO"
  /\ User.tier JwtAuthGuard.mockUser = "PRO"
  /\ option_map User.tier (Request.user (snd verdict)) = Some "PRO"
  /\ TierGuard.canActivate (Some "STARTER") (snd verdict) = true
  /\ TierGuard.canActivate (Some "PRO") (snd verdict) = true
  /\ TierGuard.canActivate (Some "ENTERPRISE") (snd verdict) = false
  /\ TierGuard.canActivate (Some "GOV") (snd verdict) = false
  /\ (forall (A : Type) (handler : User.t -> A),
        isOk (guarded (Some "STARTER") request handler) = true
        /\ isOk (guarded (Some "PRO") request handler) = true).
Proof.
  cbv zeta.
  split; [ apply jwt_verdict | ].
  split; [ apply jwt_user | ].
  split; [ reflexivity | ].
  split; [ reflexivity | ]. split; [ reflexivity | ].
  split; [ apply jwt_tier | ].
  repeat (split; [ rewrite tier_guard_after_jwt by discriminate; reflexivity | ]).
  intros A handler. rewrite guarded_starter, guarded_pro. split; reflexivity.
Qed.

(** ** Numbers *)

Section FloatFacts.

Local Open Scope float_scope.

(** A truthy number is neither a zero nor NaN. *)
Lemma numTruthy_shape (x : float) :
  JS.numTruthy x = true ->
  (exists s, Prim2SF x = S754_infinity s)
  \/ (exists s m e, Prim2SF x = S754_finite s m e).
Proof.
  unfold JS.numTruthy. rewrite !FloatAxioms.eqb_spec.
  intros H. apply andb_true_iff in H as [Hz Hn].
  destruct (Prim2SF x) as [s | s | | s m e] eqn:Hx.
  - discriminate Hz.
  - left. eauto.
  - discriminate Hn.
  - right. eauto.
Qed.

Lemma numOr_truthy (x : option float) (d : float) :
  JS.numTruthy d = true -> JS.numTruthy (JS.numOr x d) = true.
Proof.
  intros Hd. unfold JS.numOr.
  destruct x as [v |]; [ | exact Hd ].
  destruct (JS.numTruthy v) eqn:Hv; [ exact Hv | exact Hd ].
Qed.

(** Zero divided by a truthy number is a zero. *)
Lemma zero_div_truthy (x : float) :
  JS.numTruthy x = true -> exists s, Prim2SF (0 / x) = S754_zero s.
Proof.
  intros H. rewrite FloatAxioms.div_spec.
  destruct (numTruthy_shape x H) as [[s ->] | (s & m & e & ->)];
    exists s; reflexivity.
Qed.

(** Its ceiling is numerically [0]. *)
Lemma ceil_zero_div_truthy (x : float) :
  JS.numTruthy x = true -> PrimFloat.eqb 0 (JS.ceil (0 / x)) = true.
Proof.
  intros H. destruct (zero_div_truthy x H) as [s Hs].
  unfold JS.ceil. rewrite Hs. rewrite FloatAxioms.eqb_spec, Hs.
  reflexivity.
Qed.

End FloatFacts.

Section PageBounds.

Local Open Scope float_scope.

(** A number that is at least 1 is truthy and above 0. *)
Lemma at_least_one (v : float) :
  PrimFloat.leb 1 v = true ->
  JS.numTruthy v = true /\ PrimFloat.ltb 0 v = true.
Proof.
  unfold JS.numTruthy.
  rewrite FloatAxioms.leb_spec, FloatAxioms.ltb_spec, !FloatAxioms.eqb_spec.
  change (Prim2SF 1) with (S754_finite false 4503599627370496 (-52)).
  change (Prim2SF 0) with (S754_zero false).
  destruct (Prim2SF v) as [s | s | | s m e]; try discriminate.
  - destruct s; [ discriminate | intros _; split; reflexivity ].
  - destruct s; [ discriminate | ]. intros H. split; [ | reflexivity ].
    unfold SFeqb, SFcompare.
    destruct (e ?= e)%Z eqn:He; try reflexivity;
      try (rewrite Z.compare_refl in He; discriminate).
    rewrite Pos.compare_cont_refl. reflexivity.
Qed.

(** Zero divided by a number that is at least 1 is [+0], and so is its
    ceiling. *)
Lemma zero_div_at_least_one (v : float) :
  PrimFloat.leb 1 v = true -> 0 / v = 0 /\ JS.ceil (0 / v) = 0.
Proof.
  intros H.
  assert (Hq : 0 / v = 0).
  { apply Prim2SF_inj. rewrite FloatAxioms.div_spec.
    rewrite FloatAxioms.leb_spec in H.
    change (Prim2SF 1) with (S754_finite false 4503599627370496 (-52)) in H.
    change (Prim2SF 0) with (S754_zero false).
    destruct (Prim2SF v) as [s | s | | s m e]; try discriminate H;
      destruct s; try discriminate H; reflexivity. }
  split; [ exact Hq | rewrite Hq; reflexivity ].
Qed.

(** The page a valid query asks for is beyond page 0. *)
Lemma valid_page_positive (p : option float) :
  SearchShipmentsDto.validPage p = true ->
  PrimFloat.ltb 0 (JS.numOr p 1) = true.
Proof.
  destruct p as [v |]; simpl; [ | reflexivity ].
  intros H. apply andb_true_iff in H as [H _].
  apply at_least_one in H as [Ht Hpos]. rewrite Ht. exact Hpos.
Qed.

(** The page size of a valid query, defaulted, is at least 1. *)
Lemma valid_pageSize_at_least_one (ps : option float) :
  SearchShipmentsDto.validPageSize ps = true ->
  PrimFloat.leb 1 (JS.numOr ps 20) = true.
Proof.
  destruct ps as [v |]; simpl; [ | reflexivity ].
  intros H. apply andb_true_iff in H as [H _].
  destruct (at_least_one v H) as [Ht _]. rewrite Ht. exact H.
Qed.

End PageBounds.

(** ** Shipment search *)

(** The defaults the pipe fills in are the ones the service falls back on:
    the search of the instance is the search of the body. *)
Lemma search_instantiate (searchDto : SearchShipmentsDto.t) (user : User.t) :
  ShipmentsService.search (SearchShipmentsDto.instantiate searchDto) user
  = ShipmentsService.search searchDto user.
Proof.
  unfold ShipmentsService.search. simpl.
  destruct (SearchShipmentsDto.page searchDto),
    (SearchShipmentsDto.pageSize searchDto); reflexivity.
Qed.

(** The search endpoint answers a valid body with the service's result and
    refuses any other body. *)
Lemma searchShipments_spec (isDateString : string -> bool)
    (request : Request.t) (searchDto : SearchShipmentsDto.t) :
  ShipmentsController.searchShipments isDateString request searchDto =
  if SearchShipmentsDto.valid isDateString searchDto
  then Ok (ShipmentsService.search searchDto
             (if JS.truthy (Request.authorization request)
              then JwtAuthGuard.mockUser else JwtAuthGuard.devUser))
  else Err ValidationError.
Proof.
  unfold ShipmentsController.searchShipments, ValidationPipe.transform.
  rewrite guarded_starter.
  destruct (SearchShipmentsDto.valid isDateString searchDto);
    [ rewrite search_instantiate | ]; reflexivity.
Qed.

(** A valid body has a valid page and a valid page size. *)
Lemma valid_paging (isDateString : string -> bool) (d : SearchShipmentsDto.t) :
  SearchShipmentsDto.valid isDateString d = true ->
  SearchShipmentsDto.validPage (SearchShipmentsDto.page d) = true
  /\ SearchShipmentsDto.validPageSize (SearchShipmentsDto.pageSize d) = true.
Proof.
  unfold SearchShipmentsDto.valid. intros H.
  repeat (apply andb_true_iff in H as [H ?]). split; assumption.
Qed.

(** C8. In every search result [totalPages] is numerically
    [ceil(total / pageSize)], and the very same number when the page size
    is a valid one. The requested page of every valid query exceeds
    [totalPages], and for a valid query whose page does the result has no
    items and the endpoint answers with that result, not with an error;
    [total] and [totalPages] are what any other page of the same query
    reports. (A body the validation pipe refuses is answered with
    ValidationError.) *)
Theorem total_pages_is_ceiling (isDateString : string -> bool)
    (request : Request.t) (searchDto : SearchShipmentsDto.t) (user : User.t) :
  let r := ShipmentsService.search searchDto user in
  PrimFloat.eqb (ShipmentSearchResult.totalPages r)
    (JS.ceil (ShipmentSearchResult.total r / ShipmentSearchResult.pageSize r))
  = true
  /\ ShipmentSearchResult.items r = []
  /\ (SearchShipmentsDto.valid isDateString searchDto = true ->
      PrimFloat.ltb (ShipmentSearchResult.totalPages r)
                    (ShipmentSearchResult.page r) = true ->
      exists body,
        ShipmentsController.searchShipments isDateString request searchDto
        = Ok body
        /\ ShipmentSearchResult.items body = []
        /\ ShipmentSearchResult.total body = ShipmentSearchResult.total r
        /\ ShipmentSearchResult.totalPages body
           = ShipmentSearchResult.totalPages r
        /\ ShipmentSearchResult.page body = ShipmentSearchResult.page r
        /\ ShipmentSearchResult.pageSize body = ShipmentSearchResult.pageSize r)
  /\ (SearchShipmentsDto.valid isDateString searchDto = false ->
      ShipmentsController.searchShipments isDateString request searchDto
      = Err ValidationError)
  /\ (forall p : option float,
        let r' := ShipmentsService.search
                    (SearchShipmentsDto.withPaging searchDto p
                       (SearchShipmentsDto.pageSize searchDto)) user in
        ShipmentSearchResult.total r' = ShipmentSearchResult.total r
        /\ ShipmentSearchResult.totalPages r' = ShipmentSearchResult.totalPages r)
  /\ (forall valid : SearchShipmentsDto.t,
        SearchShipmentsDto.validPage (SearchShipmentsDto.page valid) = true ->
        PrimFloat.ltb
          (ShipmentSearchResult.totalPages (ShipmentsService.search valid user))
          (ShipmentSearchResult.page (ShipmentsService.search valid user))
        = true)
  /\ (forall valid : SearchShipmentsDto.t,
        SearchShipmentsDto.validPageSize (SearchShipmentsDto.pageSize valid)
        = true ->
        let r' := ShipmentsService.search valid user in
        ShipmentSearchResult.totalPages r'
        = JS.ceil (ShipmentSearchResult.total r'
                   / ShipmentSearchResult.pageSize r'))
  /\ (forall valid : SearchShipmentsDto.t,
        SearchShipmentsDto.valid isDateString valid = true ->
        PrimFloat.ltb
          (ShipmentSearchResult.totalPages (ShipmentsService.search valid user))
          (ShipmentSearchResult.page (ShipmentsService.search valid user))
        = true
        /\ exists body,
             ShipmentsController.searchShipments isDateString request valid
             = Ok body
             /\ ShipmentSearchResult.items body = []).
Proof.
  cbv zeta. split.
  - simpl. apply ceil_zero_div_truthy. apply numOr_truthy. reflexivity.
  - split; [ reflexivity | ]. split.
    { intros Hvalid _. rewrite searchShipments_spec, Hvalid.
      eexists. split; [ reflexivity | ]. repeat split. }
    split.
    { intros Hinvalid. rewrite searchShipments_spec, Hinvalid. reflexivity. }
    split; [ intros p; split; reflexivity | ]. split.
    { intros valid Hvalid. simpl. apply valid_page_positive. exact Hvalid. }
    split.
    { intros valid Hvalid. simpl. symmetry.
      apply zero_div_at_least_one. apply valid_pageSize_at_least_one.
      exact Hvalid. }
    intros valid Hvalid. split.
    + simpl. apply valid_page_positive.
      apply (valid_paging isDateString valid Hvalid).
    + rewrite searchShipments_spec, Hvalid. eexists. split; reflexivity.
Qed.

Lemma total_pages_is_ceiling_witness :
  exists body,
    ShipmentsController.searchShipments (fun _ => true) anonymousRequest
      (SearchShipmentsDto.withPaging SearchShipmentsDto.empty
         (Some 3%float) (Some 25%float)) = Ok body
    /\ ShipmentSearchResult.items body = []
    /\ ShipmentSearchResult.totalPages body = 0%float
    /\ ShipmentSearchResult.page body = 3%float.
Proof.
  destruct (total_pages_is_ceiling (fun _ => true) anonymousRequest
              (SearchShipmentsDto.withPaging SearchShipmentsDto.empty
                 (Some 3%float) (Some 25%float)) (userOfTier "PRO"))
    as (_ & _ & Hok & _).
  destruct (Hok eq_refl eq_refl) as (body & Hbody & Hitems & _ & Hpages & Hpage & _).
  exists body. repeat split; assumption.
Defined.

(** C10, as the specification states it, fails in one detail: the result
    has five facet buckets, not six. *)
Lemma search_facet_count_counterexample :
  length (Aggregations.facetBuckets
            (ShipmentSearchResult.aggregations
               (ShipmentsService.search SearchShipmentsDto.empty
                  (userOfTier "PRO")))) <> 6%nat.
Proof. simpl. discriminate. Qed.

(** C10, amended. The search is a constant function of its filters: for
    every input and user [items] is empty, [total] and [totalPages] are 0,
    all five facet buckets are empty and both range summaries are
    [{min: 0, max: 0, avg: 0}]; only [page] (default 1) and [pageSize]
    (default 20) are taken from the input, so two inputs with the same
    pagination get the same result whatever their filters. The sum of every
    facet bucket equals [total], and [total] never changes with a filter. *)
Theorem search_is_constant (searchDto : SearchShipmentsDto.t) (user : User.t) :
  let r := ShipmentsService.search searchDto user in
  let aggs := ShipmentSearchResult.aggregations r in
  ShipmentSearchResult.items r = []
  /\ ShipmentSearchResult.total r = 0%float
  /\ ShipmentSearchResult.totalPages r = 0%float
  /\ ShipmentSearchResult.page r = JS.numOr (SearchShipmentsDto.page searchDto) 1
  /\ ShipmentSearchResult.pageSize r
     = JS.numOr (SearchShipmentsDto.pageSize searchDto) 20
  /\ ShipmentSearchResult.page
       (ShipmentsService.search
          (SearchShipmentsDto.withPaging searchDto None None) user) = 1%float
  /\ ShipmentSearchResult.pageSize
       (ShipmentsService.search
          (SearchShipmentsDto.withPaging searchDto None None) user) = 20%float
  /\ length (Aggregations.facetBuckets aggs) = 5%nat
  /\ Forall (fun bucket => snd bucket = []) (Aggregations.facetBuckets aggs)
  /\ Forall (fun range =>
               snd range = {| RangeAggregation.min := 0;
                              RangeAggregation.max := 0;
                              RangeAggregation.avg := 0 |})
            (Aggregations.rangeSummaries aggs)
  /\ (forall (other : SearchShipmentsDto.t) (user' : User.t),
        ShipmentsService.search
          (SearchShipmentsDto.withPaging other
             (SearchShipmentsDto.page searchDto)
             (SearchShipmentsDto.pageSize searchDto)) user' = r)
  /\ Forall (fun bucket => facetSum (snd bucket) = ShipmentSearchResult.total r)
            (Aggregations.facetBuckets aggs)
  /\ (forall (other : SearchShipmentsDto.t) (user' : User.t),
        ShipmentSearchResult.total (ShipmentsService.search other user')
        = ShipmentSearchResult.total r).
Proof.
  cbv zeta. repeat (split; [ reflexivity | ]).
  split; [ simpl; repeat constructor | ].
  split; [ simpl; repeat constructor | ].
  split; [ intros other user'; reflexivity | ].
  split; [ simpl; repeat constructor | ].
  intros other user'. reflexivity.
Qed.

(** ** Export *)

Lemma rowLimits_lookup (s : string) :
  ShipmentsService.rowLimits !! s =
  if String.eqb s "STARTER" then Some 500
  else if String.eqb s "PRO" then Some 5000
  else if String.eqb s "ENTERPRISE" then Some 50000
  else if String.eqb s "GOV" then Some 100000
  else None.
Proof.
  unfold ShipmentsService.rowLimits.
  repeat (rewrite lookup_insert; case_decide as Hk;
          [ subst s; reflexivity
          | apply not_eq_sym in Hk; apply String.eqb_neq in Hk; rewrite Hk;
            clear Hk ]).
  apply lookup_empty.
Qed.

(** C3. The row-limit table misses the CHAMBER tier, which the tier guard
    ranks with ENTERPRISE: a CHAMBER caller falls to the default of 500
    rows, where an ENTERPRISE caller gets 50,000. *)
Theorem export_chamber_gets_default_limit :
  TierGuard.tierHierarchy !! "CHAMBER" = TierGuard.tierHierarchy !! "ENTERPRISE"
  /\ ShipmentsService.rowLimits !! "CHAMBER" = None
  /\ ShipmentsService.exportLimit (userOfTier "ENTERPRISE") = JS.Num 50000
  /\ ShipmentsService.exportLimit (userOfTier "CHAMBER") = JS.Num 500
  /\ ShipmentsService.exportLimit (userOfTier "CHAMBER")
     = ShipmentsService.exportLimit (userOfTier "STARTER")
  /\ ShipmentsService.export SearchShipmentsDto.empty csv (userOfTier "CHAMBER")
     = {| ExportResponse.message := "Export initiated with limit of 500 rows";
          ExportResponse.format := csv |}.
Proof. vm_compute. repeat split; reflexivity. Qed.

(** X22. For a caller whose tier is in the row-limit table the limit is
    the table's: STARTER 500, PRO 5,000, ENTERPRISE 50,000, GOV 100,000.
    The export does not run the query: whatever the filters, its response is
    a message that announces the limit, and the requested format. *)
Theorem export_limit_by_tier (searchDto : SearchShipmentsDto.t)
    (format : ExportFormat) (user : User.t) (cap : Z)
    (Hcap : ShipmentsService.rowLimits !! User.tier user = Some cap) :
  (ShipmentsService.rowLimits !! "STARTER" = Some 500
   /\ ShipmentsService.rowLimits !! "PRO" = Some 5000
   /\ ShipmentsService.rowLimits !! "ENTERPRISE" = Some 50000
   /\ ShipmentsService.rowLimits !! "GOV" = Some 100000)
  /\ ShipmentsService.exportLimit user = JS.Num cap
  /\ ShipmentsService.export searchDto format user
     = {| ExportResponse.message :=
            "Export initiated with limit of "
            ++ NilZero.string_of_int (Z.to_int cap) ++ " rows";
          ExportResponse.format := format |}
  /\ ExportResponse.keys (ShipmentsService.export searchDto format user)
     = ["message"; "format"]
  /\ (forall other : SearchShipmentsDto.t,
        ShipmentsService.export other format user
        = ShipmentsService.export searchDto format user).
Proof.
  assert (Hlimit : ShipmentsService.exportLimit user = JS.Num cap).
  { unfold ShipmentsService.exportLimit, JS.get. rewrite Hcap. simpl.
    rewrite rowLimits_lookup in Hcap.
    destruct (Z.eqb_spec cap 0) as [-> | _]; [ | reflexivity ].
    repeat (destruct (String.eqb (User.tier user) _); [ discriminate Hcap | ]).
    discriminate Hcap. }
  split; [ repeat split; rewrite rowLimits_lookup; reflexivity | ].
  split; [ exact Hlimit | ].
  split; [ unfold ShipmentsService.export; rewrite Hlimit; reflexivity | ].
  split; [ reflexivity | ].
  intros other. reflexivity.
Qed.

Lemma export_limit_by_tier_witness :
  ShipmentsService.export SearchShipmentsDto.empty xlsx (userOfTier "GOV")
  = {| ExportResponse.message := "Export initiated with limit of 100000 rows";
       ExportResponse.format := xlsx |}.
Proof.
  apply (export_limit_by_tier SearchShipmentsDto.empty xlsx (userOfTier "GOV")
           100000).
  reflexivity.
Defined.

(** ** Tariffs *)

Section Tariffs.

Local Open Scope float_scope.

(** C4. Whatever rate [r] the rate lookup returns and whatever the CIF
    value, the estimate has [dutyAmount = cifValue * (r / 100)],
    [vatAmount = (cifValue + dutyAmount) * vatRate] with the VAT rate 0.2
    (reported as 20 percent) and
    [totalLandedCost = cifValue + dutyAmount + vatAmount], in binary64
    arithmetic. With [cifValue = 10000] and a lookup that returns 5 the
    amounts are exactly 500, 2100 and 12600. *)
Theorem landed_cost_formula (this : TariffsService.t)
    (hsCode origin destination : string) (cifValue : float) :
  let r := DutyRates.effectiveTotalRate
             (TariffsService.getDutyRates this hsCode origin destination) in
  let estimate :=
    TariffsService.calculateLandedCost this hsCode origin destination cifValue in
  let example :=
    TariffsService.calculateLandedCost (resolverWithRate 5)
      hsCode origin destination 10000 in
  LandedCost.cifValue estimate = cifValue
  /\ LandedCost.dutyRate estimate = r
  /\ LandedCost.dutyAmount estimate = cifValue * (r / 100)
  /\ LandedCost.vatAmount estimate
     = (cifValue + LandedCost.dutyAmount estimate) * 0.2
  /\ LandedCost.vatRate estimate = 20
  /\ LandedCost.totalLandedCost estimate
     = cifValue + LandedCost.dutyAmount estimate + LandedCost.vatAmount estimate
  /\ LandedCost.dutyRate example = 5
  /\ LandedCost.dutyAmount example = 500
  /\ LandedCost.vatAmount example = 2100
  /\ LandedCost.totalLandedCost example = 12600.
Proof.
  cbv zeta. repeat (split; [ reflexivity | ]). reflexivity.
Qed.

(** The rate lookup answers every request, and so does the landed-cost
    endpoint (which a PRO caller, as every caller is, may use). *)
Lemma getDutyRates_ok (request : Request.t) (hsCode origin destination : string) :
  TariffsController.getDutyRates request hsCode origin destination
  = Ok (TariffsService.Impl.getDutyRates hsCode origin destination).
Proof. unfold TariffsController.getDutyRates. apply guarded_starter. Qed.

Lemma calculateLandedCost_ok (request : Request.t)
    (hsCode origin destination : string) (cifValue : float) :
  TariffsController.calculateLandedCost request hsCode origin destination cifValue
  = Ok (TariffsService.calculateLandedCost TariffsService.instance
          hsCode origin destination cifValue).
Proof. unfold TariffsController.calculateLandedCost. apply guarded_pro. Qed.

(** C6, as the specification states it, fails: a two-digit code is not
    refused with NotFound, and the answer for a well-formed code carries no
    [dataQuality] property. *)
Lemma duty_rates_counterexample :
  hsCodeWellFormed "12" = false
  /\ TariffsController.getDutyRates anonymousRequest "12" "CN" "DE"
     <> Err NotFound
  /\ isOk (TariffsController.getDutyRates anonymousRequest "12" "CN" "DE") = true
  /\ hsCodeWellFormed "999999" = true
  /\ ~ In "dataQuality"
       (DutyRates.keys (TariffsService.Impl.getDutyRates "999999" "CN" "DE")).
Proof.
  split; [ reflexivity | ]. rewrite getDutyRates_ok.
  split; [ discriminate | ]. split; [ reflexivity | ].
  split; [ reflexivity | ].
  simpl. intros H. repeat (destruct H as [H | H]; [ discriminate H | ]).
  exact H.
Qed.

(** C6, amended. The duty-rate lookup never fails: for every [hsCode],
    well-formed or not, it answers with a quote that repeats the three
    arguments and has MFN rate 0, effective rate 0, no preferential rate and
    no trade measure. The quote has no [dataQuality] property. *)
Theorem duty_rates_never_fail (request : Request.t)
    (hsCode origin destination : string) :
  let quote := TariffsService.Impl.getDutyRates hsCode origin destination in
  TariffsController.getDutyRates request hsCode origin destination = Ok quote
  /\ TariffsController.getDutyRates request hsCode origin destination
     <> Err NotFound
  /\ DutyRates.hsCode quote = hsCode
  /\ DutyRates.origin quote = origin
  /\ DutyRates.destination quote = destination
  /\ DutyRates.mfnRate quote = 0
  /\ DutyRates.effectiveTotalRate quote = 0
  /\ DutyRates.preferentialRates quote = []
  /\ DutyRates.tradeMeasures quote = []
  /\ ~ In "dataQuality" (DutyRates.keys quote).
Proof.
  cbv zeta. rewrite getDutyRates_ok.
  split; [ reflexivity | ]. split; [ discriminate | ].
  repeat (split; [ reflexivity | ]).
  simpl. intros H. repeat (destruct H as [H | H]; [ discriminate H | ]).
  exact H.
Qed.

(** C7, as the specification states it, fails: a CIF value of -100 is not
    refused; the endpoint answers with an estimate of -120. *)
Lemma negative_cif_counterexample :
  PrimFloat.ltb (-100) 0 = true
  /\ TariffsController.calculateLandedCost anonymousRequest
       "730890" "CN" "DE" (-100) <> Err ValidationError
  /\ exists estimate,
       TariffsController.calculateLandedCost anonymousRequest
         "730890" "CN" "DE" (-100) = Ok estimate
       /\ LandedCost.cifValue estimate = -100
       /\ LandedCost.vatAmount estimate = -20
       /\ LandedCost.totalLandedCost estimate = -120.
Proof.
  split; [ reflexivity | ]. rewrite calculateLandedCost_ok.
  split; [ discriminate | ].
  eexists. split; [ reflexivity | ]. repeat split.
Qed.

(** C7, amended. The landed-cost calculation does not check the sign of the
    CIF value: for every [cifValue], negative ones included, the endpoint
    answers with an estimate, never with ValidationError, and the estimate
    is computed by the same formulas from the lookup's rate, which is 0. *)
Theorem landed_cost_accepts_any_cif (request : Request.t)
    (hsCode origin destination : string) (cifValue : float) :
  let estimate :=
    TariffsService.calculateLandedCost TariffsService.instance
      hsCode origin destination cifValue in
  TariffsController.calculateLandedCost request hsCode origin destination cifValue
  = Ok estimate
  /\ TariffsController.calculateLandedCost request hsCode origin destination
       cifValue <> Err ValidationError
  /\ LandedCost.cifValue estimate = cifValue
  /\ LandedCost.dutyRate estimate = 0
  /\ LandedCost.dutyAmount estimate = cifValue * (0 / 100)
  /\ LandedCost.vatAmount estimate
     = (cifValue + LandedCost.dutyAmount estimate) * 0.2
  /\ LandedCost.totalLandedCost estimate
     = cifValue + LandedCost.dutyAmount estimate + LandedCost.vatAmount estimate.
Proof.
  cbv zeta. rewrite calculateLandedCost_ok.
  split; [ reflexivity | ]. split; [ discriminate | ].
  repeat (split; [ reflexivity | ]). reflexivity.
Qed.

End Tariffs.

(** ** Compliance credits *)

Lemma runCheck_ok (clock : Clock.t) (request : Request.t)
    (checkDto : RunCheckDto.t) :
  ComplianceController.runCheck clock request checkDto
  = Ok (ComplianceService.runCheck clock checkDto
          (if JS.truthy (Request.authorization request)
           then JwtAuthGuard.mockUser else JwtAuthGuard.devUser)).
Proof. unfold ComplianceController.runCheck. apply guarded_starter. Qed.

Lemma runChecks_all_ok
    (requests : list (Clock.t * Request.t * RunCheckDto.t)) :
  Forall (fun response => reportedCredits response = Some 100%float)
         (ComplianceController.runChecks requests)
  /\ List.filter isOk (ComplianceController.runChecks requests)
     = ComplianceController.runChecks requests.
Proof.
  unfold ComplianceController.runChecks.
  induction requests as [| [[clock request] checkDto] rest [IHall IHfilter]].
  - split; [ constructor | reflexivity ].
  - simpl. rewrite runCheck_ok. simpl. split.
    + constructor; [ reflexivity | exact IHall ].
    + f_equal. exact IHfilter.
Qed.

(** C5. Credits are not reserved: the organization's balance is reported
    as 100, and of 101 single-check requests made together all 101 succeed,
    none is refused with QuotaExceeded, each reports 100 remaining credits,
    and the balance is still reported as 100 afterwards. *)
Theorem credits_overcommit_at_101 :
  let requests := repeat sampleCheck 101 in
  reportedCredits (ComplianceController.runCheck sampleClock anonymousRequest
                     (snd sampleCheck)) = Some 100%float
  /\ option_map CreditsBalance.remaining
       (match ComplianceController.getCreditsBalance sampleClock anonymousRequest
        with Ok b => Some b | Err _ => None end) = Some 100%float
  /\ CheckResult.creditsRemaining
       (ComplianceService.runCheck sampleClock (snd sampleCheck)
          JwtAuthGuard.devUser) = 100%float
  /\ CreditsBalance.remaining
       (ComplianceService.getCreditsBalance sampleClock "dev-org") = 100%float
  /\ length requests = 101%nat
  /\ ComplianceController.succeeded (ComplianceController.runChecks requests)
     = 101%nat
  /\ ~ In (Err QuotaExceeded) (ComplianceController.runChecks requests).
Proof.
  cbv zeta. split; [ reflexivity | ]. split; [ reflexivity | ].
  split; [ reflexivity | ]. split; [ reflexivity | ].
  split; [ reflexivity | ]. split; [ vm_compute; reflexivity | ].
  intros H.
  pose proof (proj1 (runChecks_all_ok (repeat sampleCheck 101))) as Hall.
  rewrite List.Forall_forall in Hall. apply Hall in H. discriminate H.
Qed.

(** * Further properties of the guards and the services *)

(** ** The tier guard on its own *)

Section TierGuardFacts.

Lemma canActivate_by_level (required : option string) (request : Request.t) :
  TierGuard.canActivate required request =
  match required with
  | None | Some "" => true
  | Some r =>
      JS.ge (callerLevel request)
            (JS.orDefault (JS.get TierGuard.tierHierarchy r) 0)
  end.
Proof. destruct required as [[| c r] |]; reflexivity. Qed.

Lemma callerLevel_recognized (request : Request.t) (u : User.t) (n : Z) :
  Request.user request = Some u ->
  TierGuard.tierHierarchy !! User.tier u = Some n ->
  callerLevel request = JS.Num n.
Proof.
  intros Hu Hn. unfold callerLevel. rewrite Hu. simpl option_map.
  rewrite strOr_nonempty.
  - apply level_recognized. exact Hn.
  - rewrite tierHierarchy_lookup in Hn. eapply rankOf_nonempty; eauto.
Qed.

(** X1. Gating is monotone: when a caller of a recognized tier passes a
    requirement of a recognized tier, every caller of at least that rank
    passes every requirement of at most that rank. *)
Theorem tier_gating_monotone
    (request request' : Request.t) (u u' : User.t)
    (required required' : string) (n n' m m' : Z)
    (Hu : Request.user request = Some u)
    (Hu' : Request.user request' = Some u')
    (Hn : TierGuard.tierHierarchy !! User.tier u = Some n)
    (Hn' : TierGuard.tierHierarchy !! User.tier u' = Some n')
    (Hm : TierGuard.tierHierarchy !! required = Some m)
    (Hm' : TierGuard.tierHierarchy !! required' = Some m')
    (Hcaller : n <= n') (Hrequired : m' <= m)
    (Hpass : TierGuard.canActivate (Some required) request = true) :
  TierGuard.canActivate (Some required') request' = true.
Proof.
  rewrite canActivate_by_level in *.
  assert (Hr : required <> "")
    by (rewrite tierHierarchy_lookup in Hm; eapply rankOf_nonempty; eauto).
  assert (Hr' : required' <> "")
    by (rewrite tierHierarchy_lookup in Hm'; eapply rankOf_nonempty; eauto).
  destruct required as [| c r]; [ congruence | ].
  destruct required' as [| c' r']; [ congruence | ].
  rewrite (callerLevel_recognized _ _ _ Hu Hn) in Hpass.
  rewrite (callerLevel_recognized _ _ _ Hu' Hn').
  rewrite (level_recognized _ _ Hm) in Hpass.
  rewrite (level_recognized _ _ Hm').
  simpl in *. apply Z.leb_le in Hpass. apply Z.leb_le. lia.
Qed.

Lemma tier_gating_monotone_witness :
  TierGuard.canActivate (Some "PRO") (requestOfTier "GOV") = true.
Proof.
  apply (tier_gating_monotone (requestOfTier "CHAMBER") (requestOfTier "GOV")
           (userOfTier "CHAMBER") (userOfTier "GOV") "ENTERPRISE" "PRO" 3 4 3 2);
    try reflexivity; lia.
Defined.

(** X2. ENTERPRISE and CHAMBER are interchangeable, on either side of the
    comparison: whatever the requirement, two callers that differ only in
    having one or the other tier get the same verdict, and whatever the
    caller, requiring one or the other gives the same verdict. *)
Theorem enterprise_and_chamber_interchangeable
    (required : option string) (request : Request.t) (header : option string)
    (uid org role : string) :
  TierGuard.canActivate required
    {| Request.authorization := header;
       Request.user := Some (User.mk uid org "ENTERPRISE" role) |}
  = TierGuard.canActivate required
      {| Request.authorization := header;
         Request.user := Some (User.mk uid org "CHAMBER" role) |}
  /\ TierGuard.canActivate (Some "ENTERPRISE") request
     = TierGuard.canActivate (Some "CHAMBER") request.
Proof.
  split; rewrite !canActivate_by_level; reflexivity.
Qed.

(** X3. A request on which no user was installed, and a user whose tier is
    the empty string, are gated exactly as a STARTER caller is, whatever the
    requirement. *)
Theorem missing_tier_is_starter
    (required : option string) (header : option string)
    (uid org role : string) :
  let starter := {| Request.authorization := header;
                    Request.user := Some (User.mk uid org "STARTER" role) |} in
  TierGuard.canActivate required
    {| Request.authorization := header; Request.user := None |}
  = TierGuard.canActivate required starter
  /\ TierGuard.canActivate required
       {| Request.authorization := header;
          Request.user := Some (User.mk uid org "" role) |}
     = TierGuard.canActivate required starter.
Proof.
  cbv zeta. split; rewrite !canActivate_by_level; reflexivity.
Qed.

(** X4. A GOV caller passes every requirement that is not the name of a
    member inherited from [Object.prototype]: the recognized ones, because
    4 is the highest rank, and all the others, because they rank 0. *)
Theorem gov_passes_every_requirement
    (required : option string) (request : Request.t) (u : User.t)
    (Hu : Request.user request = Some u)
    (Hgov : User.tier u = "GOV")
    (Hplain : forall r, required = Some r ->
                JS.assoc r JS.objectPrototype = None) :
  TierGuard.canActivate required request = true.
Proof.
  rewrite canActivate_by_level.
  destruct required as [[| c r] |]; try reflexivity.
  rewrite (callerLevel_recognized request u 4 Hu)
    by (rewrite Hgov; reflexivity).
  unfold JS.get. rewrite (Hplain _ eq_refl).
  destruct (TierGuard.tierHierarchy !! String c r) as [m |] eqn:Hm.
  - rewrite tierHierarchy_lookup in Hm. apply rankOf_range in Hm. simpl.
    destruct (Z.eqb_spec m 0); [ lia | ]. simpl. apply Z.leb_le. lia.
  - reflexivity.
Qed.

Lemma gov_passes_every_requirement_witness :
  TierGuard.canActivate (Some "PLATINUM") (requestOfTier "GOV") = true.
Proof.
  apply (gov_passes_every_requirement (Some "PLATINUM") (requestOfTier "GOV")
           (userOfTier "GOV")); try reflexivity.
  intros r [= <-]. reflexivity.
Defined.

End TierGuardFacts.

(** ** The guard chain in front of the controllers *)

(** X5. The chain of the two guards does not look at who is asking. Its
    verdict is the tier guard's verdict on a PRO caller, whatever the
    request - a user the request arrived with is overwritten - and the
    handler is run for the development user when the Authorization header
    is absent or empty and for the mock user otherwise, whatever the header
    says. *)
Theorem guard_chain_ignores_the_request {A : Type}
    (required : option string) (request : Request.t) (handler : User.t -> A) :
  guarded required request handler
  = (if TierGuard.canActivate required (requestOfTier "PRO")
     then Ok (handler (if JS.truthy (Request.authorization request)
                       then JwtAuthGuard.mockUser else JwtAuthGuard.devUser))
     else Err InsufficientTier)
  /\ (forall request' : Request.t,
        isOk (guarded required request' handler)
        = isOk (guarded required request handler))
  /\ (forall request' : Request.t,
        JS.truthy (Request.authorization request')
        = JS.truthy (Request.authorization request) ->
        guarded required request' handler = guarded required request handler).
Proof.
  assert (Hchain : forall rq : Request.t,
             guarded required rq handler
             = (if TierGuard.canActivate required (requestOfTier "PRO")
                then Ok (handler (if JS.truthy (Request.authorization rq)
                                  then JwtAuthGuard.mockUser
                                  else JwtAuthGuard.devUser))
                else Err InsufficientTier)).
  { intros rq. rewrite guarded_unfold. cbv zeta.
    replace (TierGuard.canActivate required (snd (JwtAuthGuard.canActivate rq)))
      with (TierGuard.canActivate required (requestOfTier "PRO")); [ reflexivity | ].
    rewrite !canActivate_by_level. unfold callerLevel. rewrite jwt_tier.
    reflexivity. }
  split; [ apply Hchain | ]. split.
  - intros request'. rewrite !Hchain.
    destruct (TierGuard.canActivate required (requestOfTier "PRO")); reflexivity.
  - intros request' Hsame. rewrite !Hchain, Hsame. reflexivity.
Qed.

(** X6. No request reaches a handler gated at ENTERPRISE or GOV: the policy
    simulation, the beneficial-owner listing and the adverse-media check
    answer every request with the guard's refusal, also a request that
    arrives carrying a GOV user. *)
Theorem enterprise_and_gov_handlers_unreachable
    (numberToString : float -> string) (clock : Clock.t) (request : Request.t)
    (hsCode destination companyId : string) (newDutyRate : float)
    (origin : option string) (lookbackMonths : option float) :
  TariffsController.simulatePolicyImpact numberToString request hsCode
    destination newDutyRate origin lookbackMonths = Err InsufficientTier
  /\ CompaniesController.getUBOs request companyId = Err InsufficientTier
  /\ ComplianceController.runAdverseMediaCheck clock request companyId
     = Err InsufficientTier
  /\ CompaniesController.getUBOs (requestOfTier "GOV") companyId
     = Err InsufficientTier.
Proof.
  unfold TariffsController.simulatePolicyImpact, CompaniesController.getUBOs,
    ComplianceController.runAdverseMediaCheck.
  cbv zeta. rewrite !guarded_unfold. cbv zeta.
  rewrite !tier_guard_after_jwt by discriminate.
  repeat split.
Qed.

(** X7. Every sanctions check succeeds and is attributed to one of the two
    built-in users - [dev-user] without an Authorization header, [user-123]
    with one - and the company name it reports is never empty: a missing or
    empty name is reported as [Unknown], any other name as it was given. *)
Theorem check_attribution (clock : Clock.t) (request : Request.t)
    (checkDto : RunCheckDto.t) :
  exists body,
    ComplianceController.runCheck clock request checkDto = Ok body
    /\ CheckResult.checkedBy body
       = (if JS.truthy (Request.authorization request)
          then "user-123" else "dev-user")
    /\ CheckResult.companyId body = RunCheckDto.companyId checkDto
    /\ CheckResult.companyName body <> ""
    /\ CheckResult.companyName body
       = match RunCheckDto.companyName checkDto with
         | None | Some "" => "Unknown"
         | Some name => name
         end
    /\ (forall name : string,
          name <> "" -> RunCheckDto.companyName checkDto = Some name ->
          CheckResult.companyName body = name)
    /\ CheckResult.status body = CLEAR
    /\ CheckResult.hits body = [].
Proof.
  eexists. split; [ apply runCheck_ok | ].
  split; [ destruct (JS.truthy (Request.authorization request)); reflexivity | ].
  split; [ reflexivity | ]. simpl.
  destruct (RunCheckDto.companyName checkDto) as [[| c name] |]; simpl;
    (split; [ discriminate | ]); (split; [ reflexivity | ]);
    (split; [ | split; reflexivity ]).
  - intros name Hname [= <-]. congruence.
  - intros name' _ [= <-]. reflexivity.
  - intros name _ H. discriminate H.
Qed.

(** ** Export *)

(** X8. Through the endpoint every export with a valid body is given the
    PRO limit: the response announces 5000 rows whatever the request, the
    filters and the tier the request claims, and the format is [csv] unless
    one is given. A body the validation pipe refuses is answered with
    ValidationError and no export is started. *)
Theorem export_endpoint_always_pro_limit (isDateString : string -> bool)
    (request : Request.t) (searchDto : SearchShipmentsDto.t)
    (format : option ExportFormat) :
  ShipmentsController.exportShipments isDateString request searchDto format
  = (if SearchShipmentsDto.valid isDateString searchDto
     then Ok {| ExportResponse.message :=
                  "Export initiated with limit of 5000 rows";
                ExportResponse.format :=
                  match format with Some f => f | None => csv end |}
     else Err ValidationError)
  /\ ShipmentsController.exportShipments isDateString (requestOfTier "GOV")
       searchDto format
     = ShipmentsController.exportShipments isDateString
         (requestOfTier "STARTER") searchDto format.
Proof.
  unfold ShipmentsController.exportShipments, ValidationPipe.transform.
  cbv zeta. rewrite !guarded_starter. split.
  - destruct (SearchShipmentsDto.valid isDateString searchDto);
      [ | reflexivity ].
    destruct (JS.truthy (Request.authorization request)); reflexivity.
  - reflexivity.
Qed.

(** X9. The row limit of an export is never below STARTER's 500 nor above
    GOV's 100,000, and a tier that the limit table does not list gets 500 -
    unless the tier string names a member inherited from
    [Object.prototype], when the limit is that member and not a number. *)
Theorem export_limit_bounds (user : User.t) :
  match JS.assoc (User.tier user) JS.objectPrototype with
  | None =>
      exists n : Z,
        ShipmentsService.exportLimit user = JS.Num n
        /\ 500 <= n <= 100000
        /\ (ShipmentsService.rowLimits !! User.tier user = None -> n = 500)
  | Some member =>
      ShipmentsService.exportLimit user = JS.Inherited member
  end.
Proof.
  unfold ShipmentsService.exportLimit, JS.get.
  destruct (ShipmentsService.rowLimits !! User.tier user) as [n |] eqn:Hn.
  - assert (Hrange : 500 <= n <= 100000
                     /\ JS.assoc (User.tier user) JS.objectPrototype = None).
    { revert Hn. rewrite rowLimits_lookup.
      repeat (case_key; [ intros [= <-]; split; [ lia | reflexivity ] | ]).
      discriminate. }
    destruct Hrange as [Hrange ->]. exists n. simpl.
    destruct (Z.eqb_spec n 0); [ lia | ].
    split; [ reflexivity | ]. split; [ exact Hrange | discriminate ].
  - destruct (JS.assoc (User.tier user) JS.objectPrototype) as [member |].
    + reflexivity.
    + exists 500. simpl. split; [ reflexivity | ]. split; [ lia | reflexivity ].
Qed.

(** ** Order on numbers *)

Section FloatOrder.

Local Open Scope float_scope.

Lemma SFcompare_swap (x y : spec_float) :
  SFcompare y x = option_map CompOpp (SFcompare x y).
Proof.
  destruct x as [sx | sx | | sx mx ex], y as [sy | sy | | sy my ey];
    try (destruct sx); try (destruct sy); try reflexivity; simpl.
  all: rewrite (Z.compare_antisym ey ex);
    destruct (ey ?= ex)%Z; simpl; try reflexivity;
    rewrite (Pos.compare_cont_antisym mx my Eq); simpl;
    destruct (Pos.compare_cont Eq my mx); reflexivity.
Qed.

(** Two numbers that compare equal and are not zeros are the same float. *)
Lemma SFcompare_Eq_finite (x y : spec_float) (s : bool) (m : positive) (e : Z) :
  y = S754_finite s m e -> SFcompare x y = Some Eq -> x = y.
Proof.
  intros -> H.
  destruct x as [sx | sx | | sx mx ex]; try (destruct sx); try (destruct s);
    try discriminate H; simpl in H;
    destruct (ex ?= e)%Z eqn:He; try discriminate H;
    apply Z.compare_eq in He; subst ex;
    injection H as H;
    try (apply (f_equal CompOpp) in H; rewrite CompOpp_involutive in H;
         simpl in H);
    apply Pos.compare_eq in H; subst mx; reflexivity.
Qed.

Lemma isNaN_spec (x : float) :
  JS.isNaN x = true <-> Prim2SF x = S754_nan.
Proof.
  unfold JS.isNaN. rewrite FloatAxioms.eqb_spec. unfold SFeqb.
  destruct (Prim2SF x) as [s | s | | s m e] eqn:Hx; simpl.
  - split; discriminate.
  - destruct s; split; discriminate.
  - split; reflexivity.
  - split; [ | discriminate ].
    destruct s; rewrite Z.compare_refl, Pos.compare_cont_refl; discriminate.
Qed.

Lemma isNaN_nan (x : float) : JS.isNaN x = true <-> x = PrimFloat.nan.
Proof.
  rewrite isNaN_spec. split.
  - intros H. apply Prim2SF_inj. rewrite H. reflexivity.
  - intros ->. reflexivity.
Qed.

(** Only NaN is unordered. *)
Lemma SFcompare_None (x y : spec_float) :
  SFcompare x y = None -> x = S754_nan \/ y = S754_nan.
Proof.
  destruct x as [sx | sx | | sx mx ex], y as [sy | sy | | sy my ey];
    simpl; auto; discriminate.
Qed.

(** [Math.min] against a cap that is a non-zero number: the result is NaN
    for NaN, never above the cap otherwise, and the argument itself when it
    is at most the cap. *)
Lemma min_cap (x cap : float) (s : bool) (m : positive) (e : Z) :
  Prim2SF cap = S754_finite s m e ->
  (JS.isNaN x = true -> JS.min x cap = PrimFloat.nan)
  /\ (JS.isNaN x = false -> PrimFloat.leb (JS.min x cap) cap = true)
  /\ (PrimFloat.leb x cap = true -> JS.min x cap = x)
  /\ (PrimFloat.ltb cap x = true -> JS.min x cap = cap).
Proof.
  intros Hcap.
  assert (Hcapnan : JS.isNaN cap = false).
  { destruct (JS.isNaN cap) eqn:H; [ | reflexivity ].
    apply isNaN_spec in H. congruence. }
  assert (Hself : SFcompare (Prim2SF cap) (Prim2SF cap) = Some Eq).
  { rewrite Hcap. simpl.
    destruct s; rewrite Z.compare_refl, Pos.compare_cont_refl; reflexivity. }
  unfold JS.min. rewrite Hcapnan, orb_false_r.
  destruct (JS.isNaN x) eqn:Hnan.
  { split; [ reflexivity | ]. split; [ discriminate | ].
    apply isNaN_spec in Hnan.
    rewrite FloatAxioms.leb_spec, FloatAxioms.ltb_spec, Hnan, Hcap.
    split; discriminate. }
  split; [ discriminate | ].
  rewrite !FloatAxioms.ltb_spec, !FloatAxioms.leb_spec.
  unfold SFltb, SFleb.
  rewrite (SFcompare_swap (Prim2SF x) (Prim2SF cap)).
  destruct (SFcompare (Prim2SF x) (Prim2SF cap)) as [[| |] |] eqn:Hc; simpl.
  - (* equal *)
    pose proof (SFcompare_Eq_finite _ _ s m e Hcap Hc) as Heq.
    apply Prim2SF_inj in Heq. subst x.
    assert (Hnz : JS.isNegZero cap = false)
      by (unfold JS.isNegZero; rewrite Hcap; reflexivity).
    rewrite Hnz, Hself.
    split; [ reflexivity | ]. split; [ reflexivity | discriminate ].
  - (* below the cap *)
    rewrite Hc. split; [ reflexivity | ]. split; [ reflexivity | discriminate ].
  - (* above the cap *)
    rewrite Hself.
    split; [ reflexivity | ]. split; [ discriminate | reflexivity ].
  - (* unordered: excluded *)
    apply SFcompare_None in Hc as [Hc | Hc].
    + apply isNaN_spec in Hc. congruence.
    + congruence.
Qed.

End FloatOrder.

(** ** Caps and pagination outside the search *)

Section CapsAndPages.

Local Open Scope float_scope.

(** X10. The look-alike finder and the trade timeline cap their numeric
    parameter from above only. The limit handed on is never above 50 (36
    for the months) unless it is NaN; a value at or below the cap - zero and
    negative values too - is handed on unchanged; and without the parameter
    the defaults 10 and 12 apply. *)
Theorem company_lookups_capped_from_above (request : Request.t)
    (companyId : string) (limit months : option float) :
  exists similar timeline,
    CompaniesController.getSimilarCompanies request companyId limit = Ok similar
    /\ CompaniesController.getTradeTimeline request companyId months = Ok timeline
    /\ (JS.isNaN (SimilarCompanies.limit similar) = true
        \/ PrimFloat.leb (SimilarCompanies.limit similar) 50 = true)
    /\ (JS.isNaN (TradeTimeline.months timeline) = true
        \/ PrimFloat.leb (TradeTimeline.months timeline) 36 = true)
    /\ (forall l, limit = Some l -> PrimFloat.leb l 50 = true ->
          SimilarCompanies.limit similar = l)
    /\ (forall l, months = Some l -> PrimFloat.leb l 36 = true ->
          TradeTimeline.months timeline = l)
    /\ (forall l, limit = Some l -> PrimFloat.ltb 50 l = true ->
          SimilarCompanies.limit similar = 50)
    /\ (forall l, months = Some l -> PrimFloat.ltb 36 l = true ->
          TradeTimeline.months timeline = 36)
    /\ (limit = None -> SimilarCompanies.limit similar = 10)
    /\ (months = None -> TradeTimeline.months timeline = 12).
Proof.
  unfold CompaniesController.getSimilarCompanies,
    CompaniesController.getTradeTimeline. cbv zeta.
  rewrite !guarded_pro. do 2 eexists.
  split; [ reflexivity | ]. split; [ reflexivity | ]. simpl.
  pose proof (min_cap (JS.defaultTo limit 10) 50 false
                7036874417766400%positive (-47) eq_refl)
    as (Hnan50 & Hle50 & Hid50 & Hcap50).
  pose proof (min_cap (JS.defaultTo months 12) 36 false
                5066549580791808%positive (-47) eq_refl)
    as (Hnan36 & Hle36 & Hid36 & Hcap36).
  split.
  { destruct (JS.isNaN (JS.defaultTo limit 10)) eqn:Hn.
    - left. rewrite (Hnan50 eq_refl). reflexivity.
    - right. apply Hle50. reflexivity. }
  split.
  { destruct (JS.isNaN (JS.defaultTo months 12)) eqn:Hn.
    - left. rewrite (Hnan36 eq_refl). reflexivity.
    - right. apply Hle36. reflexivity. }
  split; [ intros l ->; exact Hid50 | ].
  split; [ intros l ->; exact Hid36 | ].
  split; [ intros l ->; exact Hcap50 | ].
  split; [ intros l ->; exact Hcap36 | ].
  split; intros ->; reflexivity.
Qed.

(** A number that is not truthy is a zero or NaN. *)
Lemma numTruthy_false_shape (x : float) :
  JS.numTruthy x = false ->
  (exists s, Prim2SF x = S754_zero s) \/ Prim2SF x = S754_nan.
Proof.
  unfold JS.numTruthy. rewrite !FloatAxioms.eqb_spec.
  change (Prim2SF 0) with (S754_zero false).
  destruct (Prim2SF x) as [s | s | | s m e]; eauto.
  - destruct s; discriminate.
  - unfold SFeqb. simpl.
    destruct s; rewrite Z.compare_refl, Pos.compare_cont_refl; discriminate.
Qed.

(** X11. The shipments-of-a-company listing has no items, [total = 0] and
    [totalPages = 0], and reports the page and the page size it was given,
    undefaulted. So [totalPages] is numerically [ceil(total / pageSize)]
    exactly when the page size is neither zero nor NaN: for those the
    quotient is NaN. *)
Theorem findByCompany_pages (companyId : string)
    (role : ShipmentsService.CompanyRole)
    (pagination : ShipmentsService.Pagination) (user : User.t) :
  let r := ShipmentsService.findByCompany companyId role pagination user in
  ShipmentSearchResult.items r = []
  /\ ShipmentSearchResult.total r = 0
  /\ ShipmentSearchResult.totalPages r = 0
  /\ ShipmentSearchResult.page r = ShipmentsService.page pagination
  /\ ShipmentSearchResult.pageSize r = ShipmentsService.pageSize pagination
  /\ (ShipmentSearchResult.totalPages r
      =? JS.ceil (ShipmentSearchResult.total r / ShipmentSearchResult.pageSize r))
     = JS.numTruthy (ShipmentsService.pageSize pagination)
  /\ (JS.numTruthy (ShipmentsService.pageSize pagination) = false ->
      JS.ceil (ShipmentSearchResult.total r / ShipmentSearchResult.pageSize r)
      = nan).
Proof.
  cbv zeta. repeat (split; [ reflexivity | ]). simpl.
  assert (Hq : JS.numTruthy (ShipmentsService.pageSize pagination) = false ->
               Prim2SF (0 / ShipmentsService.pageSize pagination) = S754_nan).
  { intros Ht. rewrite FloatAxioms.div_spec.
    destruct (numTruthy_false_shape _ Ht) as [[s ->] | ->]; reflexivity. }
  split.
  - destruct (JS.numTruthy (ShipmentsService.pageSize pagination)) eqn:Ht.
    + apply ceil_zero_div_truthy. exact Ht.
    + specialize (Hq eq_refl).
      unfold JS.ceil. rewrite Hq. rewrite FloatAxioms.eqb_spec, Hq. reflexivity.
  - intros Ht. specialize (Hq Ht). unfold JS.ceil. rewrite Hq.
    apply Prim2SF_inj. rewrite Hq. reflexivity.
Qed.

(** A number that is at least 1 is at least 0. *)
Lemma at_least_one_nonneg (v : float) :
  PrimFloat.leb 1 v = true -> PrimFloat.leb 0 v = true.
Proof.
  rewrite !FloatAxioms.leb_spec.
  change (Prim2SF 1) with (S754_finite false 4503599627370496 (-52)).
  change (Prim2SF 0) with (S754_zero false).
  destruct (Prim2SF v) as [s | s | | s m e]; try discriminate;
    destruct s; try discriminate; reflexivity.
Qed.

(** X12. After a search with a valid page the results view never offers a
    next page: the Next button is disabled, since the backend reports
    [totalPages = 0]; on the default first page Previous is disabled as
    well. *)
Theorem next_page_never_offered (searchDto : SearchShipmentsDto.t)
    (user : User.t)
    (Hvalid : SearchShipmentsDto.validPage (SearchShipmentsDto.page searchDto)
              = true) :
  ResultsView.nextDisabled (ShipmentsService.search searchDto user) = true
  /\ ResultsView.previousDisabled
       (ShipmentsService.search
          (SearchShipmentsDto.withPaging searchDto None
             (SearchShipmentsDto.pageSize searchDto)) user) = true.
Proof.
  split; [ | reflexivity ].
  unfold ResultsView.nextDisabled. simpl.
  destruct (SearchShipmentsDto.page searchDto) as [v |]; [ | reflexivity ].
  simpl in *. apply andb_true_iff in Hvalid as [Hone _].
  destruct (at_least_one v Hone) as [-> _].
  apply at_least_one_nonneg. exact Hone.
Qed.

Lemma next_page_never_offered_witness :
  ResultsView.nextDisabled
    (ShipmentsService.search
       (SearchShipmentsDto.withPaging SearchShipmentsDto.empty
          (Some 7) (Some 50)) (userOfTier "PRO")) = true.
Proof.
  apply (next_page_never_offered
           (SearchShipmentsDto.withPaging SearchShipmentsDto.empty
              (Some 7) (Some 50)) (userOfTier "PRO")).
  reflexivity.
Defined.

End CapsAndPages.

(** ** Landed cost with the class's own rate lookup *)

Section LandedCostFacts.

Local Open Scope float_scope.

Lemma isFinite_shape (x : float) :
  JS.isFinite x =
  match Prim2SF x with
  | S754_zero _ | S754_finite _ _ _ => true
  | _ => false
  end.
Proof.
  unfold JS.isFinite. rewrite FloatAxioms.ltb_spec, FloatAxioms.abs_spec.
  change (Prim2SF infinity) with (S754_infinity false).
  destruct (Prim2SF x) as [s | s | | s m e]; reflexivity.
Qed.

(** Adding the zero duty of a finite value leaves the value. *)
Lemma finite_plus_zero_duty (x : float) :
  JS.isFinite x = true -> x + x * (0 / 100) = x /\ (x * (0 / 100) =? 0) = true.
Proof.
  rewrite isFinite_shape. intros H.
  change (0 / 100) with 0.
  assert (Hd : Prim2SF (x * 0) =
               match Prim2SF x with
               | S754_zero s | S754_finite s _ _ => S754_zero s
               | _ => S754_nan
               end).
  { rewrite FloatAxioms.mul_spec. change (Prim2SF 0) with (S754_zero false).
    destruct (Prim2SF x) as [s | s | | s m e]; try discriminate H;
      simpl; rewrite xorb_false_r; reflexivity. }
  split.
  - apply Prim2SF_inj. rewrite FloatAxioms.add_spec, Hd.
    destruct (Prim2SF x) as [s | s | | s m e]; try discriminate H.
    + destruct s; reflexivity.
    + reflexivity.
  - rewrite FloatAxioms.eqb_spec, Hd. change (Prim2SF 0) with (S754_zero false).
    destruct (Prim2SF x) as [s | s | | s m e]; try discriminate H; reflexivity.
Qed.

(** The duty of a value that is not finite is NaN. *)
Lemma nonfinite_duty (x : float) :
  JS.isFinite x = false -> x * (0 / 100) = nan.
Proof.
  rewrite isFinite_shape. intros H. change (0 / 100) with 0.
  apply Prim2SF_inj. rewrite FloatAxioms.mul_spec.
  change (Prim2SF 0) with (S754_zero false). change (Prim2SF nan) with S754_nan.
  destruct (Prim2SF x) as [s | s | | s m e]; try discriminate H; reflexivity.
Qed.

Lemma plus_nan (x : float) : x + nan = nan.
Proof.
  apply Prim2SF_inj. rewrite FloatAxioms.add_spec.
  change (Prim2SF nan) with S754_nan.
  destruct (Prim2SF x) as [s | s | | s m e]; reflexivity.
Qed.

(** X13. With the rate lookup of the class, which answers 0, the estimate
    for a finite CIF value has no duty, VAT of 0.2 times the CIF value, and a
    total of the CIF value plus that VAT, as binary64 numbers. *)
Theorem landed_cost_of_finite_cif (hsCode origin destination : string)
    (cifValue : float) (Hfinite : JS.isFinite cifValue = true) :
  let estimate :=
    TariffsService.calculateLandedCost TariffsService.instance
      hsCode origin destination cifValue in
  (LandedCost.dutyAmount estimate =? 0) = true
  /\ LandedCost.vatAmount estimate = cifValue * 0.2
  /\ LandedCost.totalLandedCost estimate = cifValue + cifValue * 0.2.
Proof.
  unfold_estimate.
  destruct (finite_plus_zero_duty cifValue Hfinite) as [Hsum Hzero].
  rewrite Hsum. repeat split. exact Hzero.
Qed.

Lemma landed_cost_of_finite_cif_witness :
  LandedCost.totalLandedCost
    (TariffsService.calculateLandedCost TariffsService.instance
       "730890" "CN" "DE" 2500) = 3000.
Proof.
  apply (landed_cost_of_finite_cif "730890" "CN" "DE" 2500). reflexivity.
Defined.

(** X14. For a CIF value that is NaN or infinite no error is raised: the
    duty, the VAT and the total of the estimate are all NaN. *)
Theorem landed_cost_of_nonfinite_cif (hsCode origin destination : string)
    (cifValue : float) (Hnonfinite : JS.isFinite cifValue = false) :
  let estimate :=
    TariffsService.calculateLandedCost TariffsService.instance
      hsCode origin destination cifValue in
  LandedCost.dutyAmount estimate = nan
  /\ LandedCost.vatAmount estimate = nan
  /\ LandedCost.totalLandedCost estimate = nan.
Proof.
  unfold_estimate. rewrite (nonfinite_duty cifValue Hnonfinite).
  rewrite !plus_nan. repeat split; reflexivity.
Qed.

Lemma landed_cost_of_nonfinite_cif_witness :
  LandedCost.totalLandedCost
    (TariffsService.calculateLandedCost TariffsService.instance
       "730890" "CN" "DE" infinity) = nan.
Proof.
  apply (landed_cost_of_nonfinite_cif "730890" "CN" "DE" infinity). reflexivity.
Defined.

End LandedCostFacts.

(** ** HS code details *)

Section HsCodes.

Lemma substring0_prefix (n : nat) (s : string) :
  String.prefix (JS.substring0 n s) s = true.
Proof.
  unfold JS.substring0. revert s.
  induction n as [| n IH]; intros [| c s]; simpl; try reflexivity.
  rewrite IH. destruct (ascii_dec c c); [ reflexivity | congruence ].
Qed.

Lemma substring0_length (n : nat) (s : string) :
  String.length (JS.substring0 n s) = Nat.min n (String.length s).
Proof.
  unfold JS.substring0. revert s.
  induction n as [| n IH]; intros [| c s]; simpl; try reflexivity.
  rewrite IH. reflexivity.
Qed.

Lemma substring0_twice (n m : nat) (s : string) :
  JS.substring0 n (JS.substring0 m s) = JS.substring0 (Nat.min n m) s.
Proof.
  unfold JS.substring0. revert m s.
  induction n as [| n IH]; intros [| m] [| c s]; simpl; try reflexivity.
  rewrite IH. reflexivity.
Qed.

Lemma substring0_digits (n : nat) (s : string) :
  forallb isDigit (list_ascii_of_string s) = true ->
  forallb isDigit (list_ascii_of_string (JS.substring0 n s)) = true.
Proof.
  unfold JS.substring0. revert s.
  induction n as [| n IH]; intros [| c s]; simpl; try reflexivity.
  intros H. apply andb_true_iff in H as [Hc Hs].
  rewrite Hc. simpl. apply IH. exact Hs.
Qed.

(** X15. In the details of an HS code the chapter is the first two and the
    heading the first four characters of the code, as far as it has them:
    the chapter is a prefix of the heading and the heading a prefix of the
    code, a code of at most two characters is its own chapter and heading,
    and for a code of six to ten digits they are two and four digits. *)
Theorem hs_code_hierarchy (code : string) :
  let details := TariffsService.getHsCodeDetails code in
  let chapter := HsCodeDetails.chapter details in
  let heading := HsCodeDetails.heading details in
  HsCodeDetails.code details = code
  /\ String.prefix chapter heading = true
  /\ String.prefix heading code = true
  /\ chapter = JS.substring0 2 heading
  /\ String.length chapter = Nat.min 2 (String.length code)
  /\ String.length heading = Nat.min 4 (String.length code)
  /\ ((String.length code <= 2)%nat -> chapter = code /\ heading = code)
  /\ (hsCodeWellFormed code = true ->
      String.length chapter = 2%nat /\ String.length heading = 4%nat
      /\ forallb isDigit (list_ascii_of_string chapter) = true
      /\ forallb isDigit (list_ascii_of_string heading) = true).
Proof.
  cbv zeta. simpl.
  assert (Hch : JS.substring0 2 code = JS.substring0 2 (JS.substring0 4 code))
    by (rewrite substring0_twice; reflexivity).
  split; [ reflexivity | ].
  split; [ rewrite Hch; apply substring0_prefix | ].
  split; [ apply substring0_prefix | ].
  split; [ exact Hch | ].
  split; [ apply substring0_length | ].
  split; [ apply substring0_length | ].
  split.
  - intros Hshort.
    destruct code as [| a [| b [| c rest]]]; simpl in Hshort;
      try (split; reflexivity); lia.
  - unfold hsCodeWellFormed. intros H.
    apply andb_true_iff in H as [H Hmax]. apply andb_true_iff in H as [Hdigits Hmin].
    apply Nat.leb_le in Hmin. rewrite !substring0_length.
    repeat split; try lia; apply substring0_digits; exact Hdigits.
Qed.

End HsCodes.

(** ** Batches and identifiers of checks *)

Section Checks.

Lemma runBatchFrom_spec (toISOString : Z -> string) (instants : nat -> Z)
    (companyIds : list string) (start : nat) :
  let items :=
    ComplianceService.runBatchFrom toISOString instants start companyIds in
  length items = length companyIds
  /\ map BatchCheckItem.companyId items = companyIds
  /\ (forall i : nat,
        nth_error items i
        = option_map
            (fun companyId =>
               {| BatchCheckItem.companyId := companyId;
                  BatchCheckItem.status := CLEAR;
                  BatchCheckItem.checkedAt := toISOString (instants (start + i)%nat);
                  BatchCheckItem.hits := [] |})
            (nth_error companyIds i)).
Proof.
  cbv zeta. revert start.
  induction companyIds as [| companyId rest IH]; intros start; simpl.
  - repeat split. intros [| i]; reflexivity.
  - destruct (IH (S start)) as (Hlen & Hids & Hnth).
    rewrite Hlen, Hids. repeat split.
    intros [| i]; simpl.
    + rewrite Nat.add_0_r. reflexivity.
    + rewrite Hnth. rewrite Nat.add_succ_r. reflexivity.
Qed.

(** X16. A batch check answers with one item per company id, in the order
    of the ids and with the id of each: the item at index [i] is CLEAR,
    without hits, and dated by the clock reading of its own turn. An empty
    batch gives an empty answer, and the endpoint lets a batch of any size
    through. *)
Theorem batch_check_is_itemwise (toISOString : Z -> string)
    (instants : nat -> Z) (request : Request.t) (companyIds : list string)
    (user : User.t) :
  let items :=
    ComplianceService.runBatchCheck toISOString instants companyIds user in
  length items = length companyIds
  /\ map BatchCheckItem.companyId items = companyIds
  /\ (forall i : nat,
        nth_error items i
        = option_map
            (fun companyId =>
               {| BatchCheckItem.companyId := companyId;
                  BatchCheckItem.status := CLEAR;
                  BatchCheckItem.checkedAt := toISOString (instants i);
                  BatchCheckItem.hits := [] |})
            (nth_error companyIds i))
  /\ ComplianceService.runBatchCheck toISOString instants [] user = []
  /\ exists body,
       ComplianceController.runBatchCheck toISOString instants request companyIds
       = Ok body
       /\ map BatchCheckItem.companyId body = companyIds.
Proof.
  cbv zeta. unfold ComplianceService.runBatchCheck.
  destruct (runBatchFrom_spec toISOString instants companyIds 0)
    as (Hlen & Hids & Hnth).
  split; [ exact Hlen | ]. split; [ exact Hids | ].
  split; [ exact Hnth | ]. split; [ reflexivity | ].
  unfold ComplianceController.runBatchCheck. rewrite guarded_pro.
  eexists. split; [ reflexivity | ].
  unfold ComplianceService.runBatchCheck. exact Hids.
Qed.

Lemma decimal_inj (a b : Z) :
  NilZero.string_of_int (Z.to_int a) = NilZero.string_of_int (Z.to_int b) ->
  a = b.
Proof.
  assert (Hnil : forall z : Z,
             Z.to_int z <> Decimal.Pos Decimal.Nil
             /\ Z.to_int z <> Decimal.Neg Decimal.Nil).
  { intros [| p | p]; simpl; split; intros [= H]; try discriminate H;
      exact (Unsigned.to_uint_nonnil p H). }
  intros H. apply (f_equal NilZero.int_of_string) in H.
  rewrite !NilZero.isi in H by apply Hnil.
  injection H as H. apply DecimalZ.to_int_inj. exact H.
Qed.

(** X17. The identifier of a check is a function of the clock alone: two
    checks have the same [id] exactly when [Date.now()] read the same
    millisecond for both, whatever the companies and the users. *)
Theorem check_id_is_the_timestamp (clock clock' : Clock.t)
    (checkDto checkDto' : RunCheckDto.t) (user user' : User.t) :
  CheckResult.id (ComplianceService.runCheck clock checkDto user)
  = CheckResult.id (ComplianceService.runCheck clock' checkDto' user')
  <-> Clock.dateNow clock = Clock.dateNow clock'.
Proof.
  simpl. split.
  - intros H. injection H as H. apply decimal_inj. exact H.
  - intros ->. reflexivity.
Qed.

End Checks.

(** ** Selection in the results view *)

Section Selection.

Lemma has_In (id : string) (set : list string) :
  ResultsView.has id set = true <-> In id set.
Proof.
  unfold ResultsView.has. rewrite existsb_exists. split.
  - intros (x & Hx & Heq). apply String.eqb_eq in Heq. subst x. exact Hx.
  - intros H. exists id. split; [ exact H | apply String.eqb_refl ].
Qed.

Lemma has_false (id : string) (set : list string) :
  ResultsView.has id set = false <-> ~ In id set.
Proof.
  rewrite <- has_In. destruct (ResultsView.has id set); split; congruence.
Qed.

Lemma delete_In (id x : string) (set : list string) :
  In x (ResultsView.delete id set) <-> In x set /\ x <> id.
Proof.
  unfold ResultsView.delete. rewrite filter_In, negb_true_iff, String.eqb_neq.
  reflexivity.
Qed.

Lemma delete_NoDup (id : string) (set : list string) :
  List.NoDup set -> List.NoDup (ResultsView.delete id set).
Proof.
  unfold ResultsView.delete. induction 1 as [| x l Hx Hl IH]; simpl.
  - constructor.
  - destruct (negb (String.eqb x id)); [ | exact IH ].
    constructor; [ | exact IH ]. rewrite filter_In. tauto.
Qed.

Lemma delete_absent (id : string) (set : list string) :
  ~ In id set -> ResultsView.delete id set = set.
Proof.
  unfold ResultsView.delete. induction set as [| x l IH]; simpl; intros H.
  - reflexivity.
  - destruct (String.eqb_spec x id) as [-> | _]; simpl.
    + exfalso. apply H. left. reflexivity.
    + f_equal. apply IH. tauto.
Qed.

Lemma delete_present (id : string) (set : list string) :
  List.NoDup set -> In id set ->
  S (length (ResultsView.delete id set)) = length set
  /\ Permutation (ResultsView.delete id set ++ [id]) set.
Proof.
  induction 1 as [| x l Hx Hl IH]; intros Hin; [ destruct Hin | ].
  unfold ResultsView.delete in *. simpl.
  destruct (String.eqb_spec x id) as [-> | Hne]; simpl.
  - fold (ResultsView.delete id l). rewrite (delete_absent id l Hx). split.
    + reflexivity.
    + symmetry. apply Permutation_cons_append.
  - destruct Hin as [Heq | Hin]; [ congruence | ].
    destruct (IH Hin) as [Hlen Hperm]. split.
    + rewrite Hlen. reflexivity.
    + constructor. exact Hperm.
Qed.

Lemma add_In (id x : string) (set : list string) :
  In x (ResultsView.add id set) <-> In x set \/ x = id.
Proof.
  unfold ResultsView.add. destruct (ResultsView.has id set) eqn:H.
  - apply has_In in H. split; [ tauto | ]. intros [Hx | ->]; assumption.
  - rewrite in_app_iff. simpl. split; intros [Hx | Hx]; auto.
    destruct Hx as [<- | []]. auto.
Qed.

Lemma add_NoDup (id : string) (set : list string) :
  List.NoDup set -> List.NoDup (ResultsView.add id set).
Proof.
  intros Hset. unfold ResultsView.add.
  destruct (ResultsView.has id set) eqn:H; [ exact Hset | ].
  apply has_false in H.
  apply (Permutation_NoDup (l := id :: set)).
  - apply Permutation_cons_append.
  - constructor; assumption.
Qed.

(** X18. Toggling the selection of an id flips whether that id is selected
    and nothing else: the other ids stay as they were, no id is held twice,
    and the count changes by exactly one. *)
Theorem toggle_flips_one_id (selectedIds : list string) (id : string)
    (Hset : List.NoDup selectedIds) :
  let next := ResultsView.toggleSelection selectedIds id in
  List.NoDup next
  /\ ResultsView.has id next = negb (ResultsView.has id selectedIds)
  /\ (forall other : string, other <> id ->
        ResultsView.has other next = ResultsView.has other selectedIds)
  /\ length next
     = if ResultsView.has id selectedIds
       then (length selectedIds - 1)%nat else S (length selectedIds).
Proof.
  cbv zeta. unfold ResultsView.toggleSelection. cbv zeta.
  destruct (ResultsView.has id selectedIds) eqn:Hhas.
  - apply has_In in Hhas.
    split; [ apply delete_NoDup; exact Hset | ].
    split; [ apply has_false; rewrite delete_In; tauto | ].
    split.
    + intros other Hne.
      destruct (ResultsView.has other selectedIds) eqn:Ho.
      * apply has_In. apply delete_In. apply has_In in Ho. tauto.
      * apply has_false. apply has_false in Ho. rewrite delete_In. tauto.
    + destruct (delete_present id selectedIds Hset Hhas) as [Hlen _]. lia.
  - split; [ apply add_NoDup; exact Hset | ].
    split; [ apply has_In; apply add_In; auto | ].
    split.
    + intros other Hne.
      destruct (ResultsView.has other selectedIds) eqn:Ho.
      * apply has_In. apply add_In. apply has_In in Ho. tauto.
      * apply has_false. apply has_false in Ho. rewrite add_In. tauto.
    + unfold ResultsView.add. rewrite Hhas, length_app. simpl. lia.
Qed.

Lemma toggle_flips_one_id_witness :
  ResultsView.has "s2" (ResultsView.toggleSelection ["s1"; "s2"; "s3"] "s2")
  = false.
Proof.
  apply (toggle_flips_one_id ["s1"; "s2"; "s3"] "s2").
  repeat constructor; simpl; intuition discriminate.
Defined.

(** X19. Toggling an id twice restores the selection: the same ids are
    selected, and when the id was not selected to begin with the state is
    the very same; when it was, the id moves to the end of the insertion
    order. *)
Theorem toggle_twice_restores (selectedIds : list string) (id : string)
    (Hset : List.NoDup selectedIds) :
  let twice :=
    ResultsView.toggleSelection
      (ResultsView.toggleSelection selectedIds id) id in
  Permutation twice selectedIds
  /\ (ResultsView.has id selectedIds = false -> twice = selectedIds)
  /\ (ResultsView.has id selectedIds = true ->
      twice = (ResultsView.delete id selectedIds ++ [id])%list).
Proof.
  cbv zeta. unfold ResultsView.toggleSelection. cbv zeta.
  destruct (ResultsView.has id selectedIds) eqn:Hhas.
  - assert (Hgone : ResultsView.has id (ResultsView.delete id selectedIds) = false)
      by (apply has_false; rewrite delete_In; tauto).
    rewrite Hgone. unfold ResultsView.add. rewrite Hgone.
    apply has_In in Hhas.
    split; [ apply delete_present; assumption | ].
    split; [ discriminate | reflexivity ].
  - assert (Hin : ResultsView.has id (ResultsView.add id selectedIds) = true)
      by (apply has_In; apply add_In; auto).
    rewrite Hin. unfold ResultsView.add. rewrite Hhas.
    apply has_false in Hhas.
    assert (Hback : ResultsView.delete id (selectedIds ++ [id])%list = selectedIds).
    { unfold ResultsView.delete. rewrite List.filter_app. simpl.
      rewrite String.eqb_refl. simpl. rewrite app_nil_r.
      apply delete_absent. exact Hhas. }
    rewrite Hback. split; [ reflexivity | ]. split; [ reflexivity | discriminate ].
Qed.

Lemma toggle_twice_restores_witness :
  Permutation
    (ResultsView.toggleSelection
       (ResultsView.toggleSelection ["s1"; "s2"; "s3"] "s1") "s1")
    ["s1"; "s2"; "s3"].
Proof.
  apply (toggle_twice_restores ["s1"; "s2"; "s3"] "s1").
  repeat constructor; simpl; intuition discriminate.
Defined.

Lemma fold_add_spec (ids set : list string) :
  List.NoDup set ->
  let result := fold_left (fun acc id => ResultsView.add id acc) ids set in
  List.NoDup result
  /\ (forall x, In x result <-> In x set \/ In x ids)
  /\ (length result <= length set + length ids)%nat
  /\ (List.NoDup ids -> (forall x, In x ids -> ~ In x set) ->
      result = (set ++ ids)%list).
Proof.
  cbv zeta. revert set.
  induction ids as [| id rest IH]; intros set Hset; simpl.
  - split; [ exact Hset | ]. split; [ intros x; tauto | ].
    split; [ lia | ]. intros _ _. rewrite app_nil_r. reflexivity.
  - destruct (IH (ResultsView.add id set) (add_NoDup id set Hset))
      as (Hnd & Hin & Hlen & Heq).
    split; [ exact Hnd | ]. split.
    + intros x. rewrite Hin, add_In. intuition.
    + split.
      * assert (length (ResultsView.add id set) <= S (length set))%nat.
        { unfold ResultsView.add. destruct (ResultsView.has id set).
          - lia.
          - rewrite length_app. simpl. lia. }
        lia.
      * intros Hids Hfresh. inversion Hids as [| ? ? Hid Hrest]; subst.
        assert (Hadd : ResultsView.add id set = (set ++ [id])%list).
        { unfold ResultsView.add.
          destruct (ResultsView.has id set) eqn:Hh; [ | reflexivity ].
          apply has_In in Hh. exfalso. apply (Hfresh id); simpl; auto. }
        rewrite Heq.
        -- rewrite Hadd, <- app_assoc. reflexivity.
        -- exact Hrest.
        -- intros x Hx. rewrite add_In. intros [Hs | ->].
           ++ apply (Hfresh x); simpl; auto.
           ++ contradiction.
Qed.

(** X20. Select-all selects exactly the ids of what is listed, each once:
    every listed company (or shipment, by the view mode) is checked, nothing
    else is, the count is at most the number listed, and equal ids are
    counted once; a listing without repeated ids is selected in its own
    order. The selection that was there before is dropped. *)
Theorem select_all_selects_the_listing {Company Shipment : Type}
    (companyId : Company -> string) (shipmentId : Shipment -> string)
    (viewMode : ResultsView.ViewMode) (shown : list Company)
    (items : list Shipment) :
  let listed := match viewMode with
                | ResultsView.companies => map companyId shown
                | ResultsView.shipments => map shipmentId items
                end in
  let next := ResultsView.selectAll companyId shipmentId viewMode shown items in
  List.NoDup next
  /\ (forall id, ResultsView.has id next = true <-> In id listed)
  /\ (length next <= length listed)%nat
  /\ (List.NoDup listed -> next = listed).
Proof.
  cbv zeta.
  assert (H : forall ids : list string,
             List.NoDup (ResultsView.newSet ids)
             /\ (forall id, ResultsView.has id (ResultsView.newSet ids) = true
                            <-> In id ids)
             /\ (length (ResultsView.newSet ids) <= length ids)%nat
             /\ (List.NoDup ids -> ResultsView.newSet ids = ids)).
  { intros ids. unfold ResultsView.newSet.
    destruct (fold_add_spec ids [] (List.NoDup_nil _))
      as (Hnd & Hin & Hlen & Heq).
    split; [ exact Hnd | ]. split.
    - intros id. rewrite has_In, Hin. simpl. tauto.
    - split; [ exact Hlen | ]. intros Hids. apply Heq; [ exact Hids | ].
      intros x _ []. }
  destruct viewMode; apply H.
Qed.

End Selection.

(** ** Pagination reported by the search *)

(** X21. The search never reports a page or a page size that is zero or
    NaN: an absent, zero or NaN value is replaced by the default (1, 20) and
    every other number - a negative or fractional one too - is reported as
    it was given. *)
Theorem search_pagination_never_zero (searchDto : SearchShipmentsDto.t)
    (user : User.t) :
  let r := ShipmentsService.search searchDto user in
  let given (p : option float) (d : float) : float :=
    match p with
    | Some v => if JS.isNaN v || PrimFloat.eqb v 0 then d else v
    | None => d
    end in
  JS.numTruthy (ShipmentSearchResult.page r) = true
  /\ JS.numTruthy (ShipmentSearchResult.pageSize r) = true
  /\ ShipmentSearchResult.page r = given (SearchShipmentsDto.page searchDto) 1%float
  /\ ShipmentSearchResult.pageSize r
     = given (SearchShipmentsDto.pageSize searchDto) 20%float.
Proof.
  cbv zeta. simpl.
  assert (H : forall (p : option float) (d : float),
             JS.numOr p d
             = match p with
               | Some v => if JS.isNaN v || PrimFloat.eqb v 0 then d else v
               | None => d
               end).
  { intros [v |] d; [ | reflexivity ]. unfold JS.numOr, JS.numTruthy, JS.isNaN.
    destruct (PrimFloat.eqb v 0), (PrimFloat.eqb v v); reflexivity. }
  split; [ apply numOr_truthy; reflexivity | ].
  split; [ apply numOr_truthy; reflexivity | ].
  split; apply H.
Qed.
